(** * An ETL pipeline over in-memory tables

    Shallow embedding of [etl/transformers/data_transformer.py],
    [etl/validators/data_validator.py] and [etl/pipeline.py].

    - A pandas [DataFrame] is a list of column labels and a list of rows,
      every row carrying its index label.
    - Python integers are [Z]; float64 cells are idealised as exact
      rationals ([Qc]), so rounding and overflow are outside the model.
    - Methods run in a small monad [M S]: the state [S] is the object
      the method mutates, the log collects the [logger] calls and the
      result is either a value or the exception raised. *)

From Stdlib Require Import QArith Qcanon Ascii String.
From stdpp Require Import base decidable option list strings numbers pretty.

Open Scope string_scope.

(** ** Cells and frames *)

Inductive value :=
  | VNull
  | VBool (b : bool)
  | VInt (n : Z)
  | VFloat (q : Qc)
  | VStr (s : string).

#[global] Instance value_eq_dec : EqDecision value.
Proof. solve_decision. Defined.

Definition isnull (v : value) : bool :=
  match v with VNull => true | _ => false end.

Definition row : Type := nat * list value.

Record DataFrame := mkDataFrame {
  columns : list string;
  data : list row
}.

#[global] Instance DataFrame_eq_dec : EqDecision DataFrame.
Proof. solve_decision. Defined.

Definition len (df : DataFrame) : Z := Z.of_nat (length (data df)).

(** ** Exceptions, log records and the method monad *)

Inductive exn :=
  | ValueError (msg : string)
  | KeyError (key : string)
  | TypeError (msg : string)
  | OtherError (msg : string).

Inductive level := INFO | WARNING | ERROR.

Definition log_record : Type := level * string.

Inductive result (A : Type) :=
  | Ok (a : A)
  | Raise (e : exn).
Arguments Ok {A} a.
Arguments Raise {A} e.

Record outcome (S A : Type) := Outcome {
  final : S;
  logged : list log_record;
  returned : result A
}.
Arguments Outcome {S A} final logged returned.
Arguments final {S A} o.
Arguments logged {S A} o.
Arguments returned {S A} o.

Definition M (S A : Type) : Type := S → outcome S A.

Definition ret {S A} (a : A) : M S A := λ s, Outcome s [] (Ok a).

Definition bind {S A B} (m : M S A) (k : A → M S B) : M S B := λ s,
  let o := m s in
  match returned o with
  | Raise e => Outcome (final o) (logged o) (Raise e)
  | Ok a =>
      let o' := k a (final o) in
      Outcome (final o') (logged o ++ logged o') (returned o')
  end.

Definition get {S} : M S S := λ s, Outcome s [] (Ok s).
Definition put {S} (s : S) : M S unit := λ _, Outcome s [] (Ok tt).
Definition raise {S A} (e : exn) : M S A := λ s, Outcome s [] (Raise e).
Definition log {S} (l : level) (msg : string) : M S unit :=
  λ s, Outcome s [(l, msg)] (Ok tt).
Definition lift_result {S A} (r : result A) : M S A :=
  λ s, Outcome s [] r.

(** [try: m  except Exception as e: logger.error(msg); raise] *)
Definition logged_reraise {S A} (msg : string) (m : M S A) : M S A := λ s,
  let o := m s in
  match returned o with
  | Raise e => Outcome (final o) (logged o ++ [(ERROR, msg)]) (Raise e)
  | Ok a => o
  end.

(** [try: m  except Exception as e: logger.error(msg)] *)
Definition logged_swallow {S} (msg : string) (m : M S unit) : M S unit := λ s,
  let o := m s in
  match returned o with
  | Raise e => Outcome (final o) (logged o ++ [(ERROR, msg)]) (Ok tt)
  | Ok a => o
  end.

Notation "x <- m ;; k" := (bind m (λ x, k))
  (at level 100, m at next level, right associativity).
Notation "m ;;; k" := (bind m (λ _, k))
  (at level 100, right associativity).

(** [for a in l: body(a)] *)
Fixpoint for_each {S A} (l : list A) (body : A → M S unit) : M S unit :=
  match l with
  | [] => ret tt
  | a :: l' => body a;;; for_each l' body
  end.

(** ** The pandas operations the transformer calls

    Modelled from the pandas documentation; log messages are recorded
    as the templates of the source, placeholders unexpanded. *)

Module pd.

(** Cells of the columns labelled [name], left to right. *)
Definition cells_of (cols : list string) (name : string) (cells : list value)
  : list value :=
  (filter (λ p, p.1 = name) (zip cols cells)).*2.

Definition project (cols names : list string) (cells : list value) : list value :=
  names ≫= (λ name, cells_of cols name cells).

(** [keep] is ["first"], ["last"] or [False]. *)
Inductive keep_policy := KeepFirst | KeepLast | KeepNone.

Definition parse_keep (keep : value) : result keep_policy :=
  match keep with
  | VStr "first" => Ok KeepFirst
  | VStr "last" => Ok KeepLast
  | VBool false => Ok KeepNone
  | _ => Raise (ValueError "keep must be either 'first', 'last' or False")
  end.

(** Rows whose key was not seen in an earlier row. *)
Fixpoint keep_first {A K} `{EqDecision K} (key : A → K) (seen : list K)
    (l : list A) : list A :=
  match l with
  | [] => []
  | r :: l' =>
      if decide (key r ∈ seen) then keep_first key seen l'
      else r :: keep_first key (key r :: seen) l'
  end.

Definition occurrences {A K} `{EqDecision K} (key : A → K) (k : K)
    (l : list A) : nat :=
  length (filter (λ r, key r = k) l).

Definition drop_duplicated {A K} `{EqDecision K} (key : A → K)
    (keep : keep_policy) (l : list A) : list A :=
  match keep with
  | KeepFirst => keep_first key [] l
  | KeepLast => reverse (keep_first key [] (reverse l))
  | KeepNone => filter (λ r, occurrences key (key r) l = 1%nat) l
  end.

(** The cells two rows are compared on: all of them, or the ones under
    the labels of [subset]. *)
Definition row_key (cols : list string) (subset : option (list string))
    (r : row) : list value :=
  match subset with
  | None => r.2
  | Some names => project cols names r.2
  end.


(** [df.drop_duplicates(subset=subset, keep=keep)] *)
Definition drop_duplicates (df : DataFrame) (subset : option (list string))
    (keep : value) : result DataFrame :=
  match parse_keep keep with
  | Raise e => Raise e
  | Ok policy =>
      match filter (λ n, n ∉ columns df) (default [] subset) with
      | [] =>
          Ok (mkDataFrame (columns df)
                (drop_duplicated (row_key (columns df) subset) policy (data df)))
      | missing :: _ => Raise (KeyError missing)
      end
  end.

(** [df.isnull().sum().sum()] *)
Definition count_nulls (cells : list value) : nat :=
  length (filter (λ v, v = VNull) cells).

Definition isnull_sum_sum (df : DataFrame) : Z :=
  Z.of_nat (sum_list ((λ r : row, count_nulls r.2) <$> data df)).

(** [df.dropna()] *)
Definition dropna (df : DataFrame) : DataFrame :=
  mkDataFrame (columns df) (filter (λ r : row, count_nulls r.2 = 0%nat) (data df)).

(** [df.fillna(value)]; pandas refuses [value=None]. *)
Definition fillna (df : DataFrame) (fill_value : value) : result DataFrame :=
  match fill_value with
  | VNull => Raise (ValueError "Must specify a fill 'value' or 'method'.")
  | _ =>
      Ok (mkDataFrame (columns df)
            ((λ r : row, (r.1, (λ v, if isnull v then fill_value else v) <$> r.2))
               <$> data df))
  end.

(** One step of a fill: a missing cell takes the cell above it. *)
Definition fill_from (prev cur : list value) : list value :=
  zip_with (λ p c, if isnull c then p else c) (prev ++ replicate (length cur) VNull)%list cur.

Fixpoint ffill_rows (prev : list value) (rows : list row) : list row :=
  match rows with
  | [] => []
  | r :: rows' =>
      let cells := fill_from prev r.2 in
      (r.1, cells) :: ffill_rows cells rows'
  end.

(** [df.ffill()] and [df.bfill()] *)
Definition ffill (df : DataFrame) : DataFrame :=
  mkDataFrame (columns df) (ffill_rows [] (data df)).

Definition bfill (df : DataFrame) : DataFrame :=
  mkDataFrame (columns df) (reverse (ffill_rows [] (reverse (data df)))).

(** [df.rename(columns=mapping)] *)
Definition lookup_str {A} (k : string) (m : list (string * A)) : option A :=
  (λ p : nat * (string * A), p.2.2) <$> list_find (λ p, p.1 = k) m.

Definition rename (df : DataFrame) (mapping : list (string * string)) : DataFrame :=
  mkDataFrame ((λ c, default c (lookup_str c mapping)) <$> columns df) (data df).

(** [df[names]] for a list of labels that are all present *)
Definition getitem_list (df : DataFrame) (names : list string) : DataFrame :=
  mkDataFrame
    (names ≫= (λ name, filter (λ c, c = name) (columns df)))
    ((λ r : row, (r.1, project (columns df) names r.2)) <$> data df).

(** [df[mask]] for a boolean mask *)
Definition getitem_mask (df : DataFrame) (mask : list bool) : result DataFrame :=
  if decide (length mask = length (data df)) then
    Ok (mkDataFrame (columns df)
          ((filter (λ p : row * bool, p.2 = true) (zip (data df) mask)).*1))
  else Raise (ValueError "Item wrong length").

(** [df[name]] as the cells of every row, when the label occurs once. *)
Definition getitem (df : DataFrame) (name : string) : list value :=
  (λ r : row, default VNull (head (cells_of (columns df) name r.2))) <$> data df.

(** [df[name] = cells]: overwrite the labelled column or append a new one. *)
Definition setitem (df : DataFrame) (name : string) (cells : list value)
  : DataFrame :=
  if decide (name ∈ columns df) then
    mkDataFrame (columns df)
      (zip_with
         (λ (r : row) v,
            (r.1, zip_with (λ c old, if decide (c = name) then v else old)
                    (columns df) r.2))
         (data df) cells)
  else
    mkDataFrame (columns df ++ [name])%list
      (zip_with (λ (r : row) v, (r.1, (r.2 ++ [v])%list)) (data df) cells).

(** *** Series reductions and arithmetic *)

Definition number (v : value) : option Qc :=
  match v with
  | VInt n => Some (Qc_of_Z n)
  | VFloat q => Some q
  | _ => None
  end.

Definition notna (cells : list value) : list value :=
  filter (λ v, v ≠ VNull) cells.

(** The numbers of a Series that holds nothing but numbers and missing
    cells. *)
Definition numbers (cells : list value) : option (list Qc) :=
  mapM number (notna cells).

Definition Qc_min (x y : Qc) : Qc := if decide (x ≤ y)%Qc then x else y.
Definition Qc_max (x y : Qc) : Qc := if decide (x ≤ y)%Qc then y else x.

Definition reduce (f : Qc → Qc → Qc) (l : list Qc) : value :=
  match l with
  | [] => VNull
  | x :: l' => VFloat (foldl f x l')
  end.

(** All cells that are present hold one and the same value. *)
Definition constant (cells : list value) : option value :=
  match notna cells with
  | [] => None
  | v :: l => if decide (Forall (λ w, w = v) l) then Some v else None
  end.

(** [Series.min()] and [Series.max()] skip missing cells and give NaN
    on a Series without values.  Ordering two values of a Series that is
    not numeric is reduced to the one case the transformer can tell
    apart: a constant Series has its value as minimum and as maximum;
    on any other one the subtraction that follows raises, which is
    raised here. *)
Definition extremum (f : Qc → Qc → Qc) (cells : list value) : result value :=
  match numbers cells with
  | Some l => Ok (reduce f l)
  | None =>
      match constant cells with
      | Some v => Ok v
      | None => Raise (TypeError "unsupported operand type(s) for -")
      end
  end.

Definition min := extremum Qc_min.
Definition max := extremum Qc_max.

(** Python [==] on two scalars; NaN equals nothing. *)
Definition eq (a b : value) : bool :=
  match a, b with
  | VNull, _ | _, VNull => false
  | _, _ =>
      match number a, number b with
      | Some x, Some y => bool_decide (x = y)
      | _, _ => bool_decide (a = b)
      end
  end.

(** [a - b] and [a / b] on scalars: NaN propagates, text and booleans
    are refused.  A zero divisor gives inf or NaN, both NaN here. *)
Definition sub (a b : value) : result value :=
  match a, b with
  | VNull, (VNull | VInt _ | VFloat _) | (VInt _ | VFloat _), VNull => Ok VNull
  | _, _ =>
      match number a, number b with
      | Some x, Some y => Ok (VFloat (x - y))
      | _, _ => Raise (TypeError "unsupported operand type(s) for -")
      end
  end.

Definition div (a b : value) : result value :=
  match a, b with
  | VNull, (VNull | VInt _ | VFloat _) | (VInt _ | VFloat _), VNull => Ok VNull
  | _, _ =>
      match number a, number b with
      | Some x, Some y =>
          Ok (if decide (y = 0%Qc) then VNull else VFloat (x / y))
      | _, _ => Raise (TypeError "unsupported operand type(s) for /")
      end
  end.

Fixpoint map_result {A B} (f : A → result B) (l : list A) : result (list B) :=
  match l with
  | [] => Ok []
  | a :: l' =>
      match f a with
      | Raise e => Raise e
      | Ok b =>
          match map_result f l' with
          | Raise e => Raise e
          | Ok bs => Ok (b :: bs)
          end
      end
  end.

(** [series - scalar] and [series / scalar] *)
Definition series_sub (cells : list value) (b : value) : result (list value) :=
  map_result (λ a, sub a b) cells.
Definition series_div (cells : list value) (b : value) : result (list value) :=
  map_result (λ a, div a b) cells.

(** [Series.mean()] and [Series.std()] (sample deviation, [ddof=1]);
    the square root is the caller's. *)
Definition Qc_sum (l : list Qc) : Qc := foldr Qcplus 0%Qc l.

Definition mean (cells : list value) : result value :=
  match numbers cells with
  | None => Raise (TypeError "Could not convert to numeric")
  | Some [] => Ok VNull
  | Some l => Ok (VFloat (Qc_sum l / Qc_of_Z (Z.of_nat (length l))))
  end.

Definition std (sqrt : Qc → Qc) (cells : list value) : result value :=
  match numbers cells with
  | None => Raise (TypeError "Could not convert to numeric")
  | Some l =>
      if decide (length l < 2)%nat then Ok VNull
      else
        let n := Qc_of_Z (Z.of_nat (length l)) in
        let m := (Qc_sum l / n)%Qc in
        Ok (VFloat (sqrt (Qc_sum ((λ x, (x - m) * (x - m))%Qc <$> l) / (n - 1))%Qc))
  end.

End pd.

(** ** What the package gets from outside

    Files and the pandas routines whose results no property below
    depends on are taken as given functions. *)

Record Externals := {
  (** [numpy.sqrt] *)
  np_sqrt : Qc → Qc;
  (** [Series.astype(dtype)] *)
  astype : list value → string → result (list value);
  (** [df.groupby(group_by).agg(agg_func).reset_index()] *)
  groupby_agg : DataFrame → list string → list (string * string) → result DataFrame;
  (** [DataExtractor.extract(file_path, file_type)] *)
  extractor_extract : string → option string → result DataFrame;
  (** [DataLoader.load(df, file_path, file_type)] *)
  loader_load : DataFrame → string → option string → result unit;
  (** [str(x)] and [float(s)] for a float [x] and a string [s] *)
  str_of_float : Qc → string;
  float_of_str : string → option Qc;
  (** [datetime.strptime(date_str, format)] succeeds *)
  strptime : string → string → bool
}.

(** A row as the function given to [df.apply(func, axis=1)] sees it. *)
Definition labelled_row : Type := list (string * value).

(** ** etl/transformers/data_transformer.py

    Every method is a computation on the frame object it is given: the
    ones that assign to [df[column]] change that object, the others
    return a new frame and leave it alone. *)

Module DataTransformer.
Section methods.
Context (ext : Externals).

Definition remove_duplicates (subset : option (list string)) (keep : value)
  : M DataFrame DataFrame :=
  logged_reraise "Erro ao remover duplicatas: {str(e)}"
    (df <- get;;
     let initial_count := len df in
     df <- lift_result (pd.drop_duplicates df subset keep);;
     let removed := (initial_count - len df)%Z in
     log INFO "✓ Removidas {removed} duplicatas";;;
     ret df).

Definition handle_missing_values (strategy : string) (fill_value : value)
  : M DataFrame DataFrame :=
  logged_reraise "Erro ao lidar com valores faltantes: {str(e)}"
    (df <- get;;
     let missing_count := pd.isnull_sum_sum df in
     if decide (missing_count = 0%Z) then
       log INFO "✓ Nenhum valor faltante encontrado";;;
       ret df
     else
       df <- (if decide (strategy = "drop") then
                let df := pd.dropna df in
                log INFO "✓ Removidas {missing_count} linhas com valores faltantes";;;
                ret df
              else if decide (strategy = "fill") then
                df <- lift_result (pd.fillna df fill_value);;
                log INFO "✓ Preenchidas {missing_count} valores faltantes com {fill_value}";;;
                ret df
              else if decide (strategy = "forward_fill") then
                let df := pd.ffill df in
                log INFO "✓ Preenchidas {missing_count} valores faltantes (forward fill)";;;
                ret df
              else if decide (strategy = "backward_fill") then
                let df := pd.bfill df in
                log INFO "✓ Preenchidas {missing_count} valores faltantes (backward fill)";;;
                ret df
              else
                raise (ValueError ("Estratégia desconhecida: " +:+ strategy)));;
       ret df).

Definition rename_columns (mapping : list (string * string))
  : M DataFrame DataFrame :=
  logged_reraise "Erro ao renomear colunas: {str(e)}"
    (df <- get;;
     let df := pd.rename df mapping in
     log INFO "✓ Renomeadas {len(mapping)} colunas";;;
     ret df).

Definition select_columns (columns_ : list string) : M DataFrame DataFrame :=
  logged_reraise "Erro ao selecionar colunas: {str(e)}"
    (df <- get;;
     let missing_cols := filter (λ c, c ∉ columns df) columns_ in
     (if decide (missing_cols = []) then ret tt
      else log WARNING "Colunas não encontradas: {missing_cols}");;;
     let df := pd.getitem_list df (filter (λ col, col ∈ columns df) columns_) in
     log INFO "✓ Selecionadas {len(df.columns)} colunas";;;
     ret df).

Definition filter_rows (condition : DataFrame → result (list bool))
  : M DataFrame DataFrame :=
  logged_reraise "Erro ao filtrar linhas: {str(e)}"
    (df <- get;;
     let initial_count := len df in
     mask <- lift_result (condition df);;
     df <- lift_result (pd.getitem_mask df mask);;
     let removed := (initial_count - len df)%Z in
     log INFO "✓ Filtradas {removed} linhas";;;
     ret df).

Definition convert_data_types (dtype_mapping : list (string * string))
  : M DataFrame DataFrame :=
  logged_reraise "Erro ao converter tipos de dados: {str(e)}"
    (for_each dtype_mapping (λ item,
       let column := item.1 in
       let dtype := item.2 in
       df <- get;;
       if decide (column ∈ columns df) then
         logged_swallow "Erro ao converter {column} para {dtype}: {str(e)}"
           (cells <- lift_result (astype ext (pd.getitem df column) dtype);;
            put (pd.setitem df column cells);;;
            log INFO "✓ Coluna {column} convertida para {dtype}")
       else ret tt);;;
     df <- get;;
     ret df).

(** [df[column]] is a frame when the label is repeated; its reductions
    are then Series and the [if] that compares them raises. *)
Definition the_column (df : DataFrame) (column : string) : result (list value) :=
  if decide (length (filter (λ c, c = column) (columns df)) = 1)%nat then
    Ok (pd.getitem df column)
  else Raise (ValueError "The truth value of a Series is ambiguous.").

Definition normalize_column (column method : string) : M DataFrame DataFrame :=
  logged_reraise "Erro ao normalizar coluna: {str(e)}"
    (df <- get;;
     if decide (column ∉ columns df) then
       log WARNING "Coluna {column} não encontrada";;;
       ret df
     else
       (if decide (method = "minmax") then
          cells <- lift_result (the_column df column);;
          min_val <- lift_result (pd.min cells);;
          max_val <- lift_result (pd.max cells);;
          (if pd.eq max_val min_val then
             log WARNING "Coluna {column} tem todos os valores iguais. Normalizando para 0.";;;
             put (pd.setitem df column (replicate (length cells) (VInt 0)))
           else
             num <- lift_result (pd.series_sub cells min_val);;
             den <- lift_result (pd.sub max_val min_val);;
             res <- lift_result (pd.series_div num den);;
             put (pd.setitem df column res));;;
          log INFO "✓ Coluna {column} normalizada (minmax)"
        else if decide (method = "zscore") then
          cells <- lift_result (the_column df column);;
          mean <- lift_result (pd.mean cells);;
          std <- lift_result (pd.std (np_sqrt ext) cells);;
          (if pd.eq std (VInt 0) then
             log WARNING "Coluna {column} tem desvio padrão zero. Normalizando para 0.";;;
             put (pd.setitem df column (replicate (length cells) (VInt 0)))
           else
             num <- lift_result (pd.series_sub cells mean);;
             res <- lift_result (pd.series_div num std);;
             put (pd.setitem df column res));;;
          log INFO "✓ Coluna {column} normalizada (zscore)"
        else
          raise (ValueError ("Método de normalização desconhecido: " +:+ method)));;;
       df <- get;;
       ret df).

Definition add_calculated_column (column_name : string)
    (func : labelled_row → result value) : M DataFrame DataFrame :=
  logged_reraise "Erro ao adicionar coluna calculada: {str(e)}"
    (df <- get;;
     cells <- lift_result
       (pd.map_result (λ r : row, func (zip (columns df) r.2)) (data df));;
     put (pd.setitem df column_name cells);;;
     log INFO "✓ Adicionada coluna calculada: {column_name}";;;
     df <- get;;
     ret df).

Definition aggregate_data (group_by : list string)
    (agg_func : list (string * string)) : M DataFrame DataFrame :=
  logged_reraise "Erro ao agregar dados: {str(e)}"
    (df <- get;;
     df <- lift_result (groupby_agg ext df group_by agg_func);;
     log INFO "✓ Dados agregados por {group_by}";;;
     ret df).

End methods.
End DataTransformer.

(** ** etl/pipeline.py *)

Record PipelineStats := mkPipelineStats {
  total_records : Z;
  valid_records : Z;
  invalid_records : Z;
  duplicates_removed : Z;
  missing_values_handled : Z;
  transformations_applied : Z;
  execution_time : Qc;
  start_time : string;
  end_time : string;
  status : string
}.

Definition PipelineStats_default : PipelineStats :=
  mkPipelineStats 0 0 0 0 0 0 0%Qc "" "" "pending".

Definition set_total_records (n : Z) (s : PipelineStats) : PipelineStats :=
  mkPipelineStats n (valid_records s) (invalid_records s) (duplicates_removed s)
    (missing_values_handled s) (transformations_applied s) (execution_time s)
    (start_time s) (end_time s) (status s).

Definition set_duplicates_removed (n : Z) (s : PipelineStats) : PipelineStats :=
  mkPipelineStats (total_records s) (valid_records s) (invalid_records s) n
    (missing_values_handled s) (transformations_applied s) (execution_time s)
    (start_time s) (end_time s) (status s).

Definition set_missing_values_handled (n : Z) (s : PipelineStats) : PipelineStats :=
  mkPipelineStats (total_records s) (valid_records s) (invalid_records s)
    (duplicates_removed s) n (transformations_applied s) (execution_time s)
    (start_time s) (end_time s) (status s).

Definition set_transformations_applied (n : Z) (s : PipelineStats) : PipelineStats :=
  mkPipelineStats (total_records s) (valid_records s) (invalid_records s)
    (duplicates_removed s) (missing_values_handled s) n (execution_time s)
    (start_time s) (end_time s) (status s).

Definition set_execution_time (t : Qc) (s : PipelineStats) : PipelineStats :=
  mkPipelineStats (total_records s) (valid_records s) (invalid_records s)
    (duplicates_removed s) (missing_values_handled s) (transformations_applied s)
    t (start_time s) (end_time s) (status s).

Definition set_start_time (t : string) (s : PipelineStats) : PipelineStats :=
  mkPipelineStats (total_records s) (valid_records s) (invalid_records s)
    (duplicates_removed s) (missing_values_handled s) (transformations_applied s)
    (execution_time s) t (end_time s) (status s).

Definition set_end_time (t : string) (s : PipelineStats) : PipelineStats :=
  mkPipelineStats (total_records s) (valid_records s) (invalid_records s)
    (duplicates_removed s) (missing_values_handled s) (transformations_applied s)
    (execution_time s) (start_time s) t (status s).

Definition set_status (st : string) (s : PipelineStats) : PipelineStats :=
  mkPipelineStats (total_records s) (valid_records s) (invalid_records s)
    (duplicates_removed s) (missing_values_handled s) (transformations_applied s)
    (execution_time s) (start_time s) (end_time s) st.

(** The instance: [self.df] is [None] until an extraction succeeds. *)
Record ETLPipeline := mkETLPipeline {
  df : option DataFrame;
  stats : PipelineStats;
  validation_errors : list string
}.

Definition ETLPipeline_init : ETLPipeline :=
  mkETLPipeline None PipelineStats_default [].

Module Pipeline.
Section methods.
Context (ext : Externals).

(** [self.df = d] and [self.stats.field = ...] *)
Definition assign_df (d : DataFrame) : M ETLPipeline unit := λ self,
  Outcome (mkETLPipeline (Some d) (stats self) (validation_errors self)) [] (Ok tt).

Definition assign_stats (f : PipelineStats → PipelineStats) : M ETLPipeline unit :=
  λ self,
  Outcome (mkETLPipeline (df self) (f (stats self)) (validation_errors self)) [] (Ok tt).

(** [len(self.df)] *)
Definition len_df : M ETLPipeline Z := λ self,
  match df self with
  | Some d => Outcome self [] (Ok (len d))
  | None => Outcome self [] (Raise (TypeError "object of type 'NoneType' has no len()"))
  end.

(** A transformer method called on [self.df]: what it does to the frame
    object it is given is seen through [self.df], whatever it returns. *)
Definition on_df {A} (m : M DataFrame A) : M ETLPipeline A := λ self,
  match df self with
  | Some d =>
      let o := m d in
      Outcome (mkETLPipeline (Some (final o)) (stats self) (validation_errors self))
        (logged o) (returned o)
  | None =>
      Outcome self [] (Raise (TypeError "'NoneType' object is not subscriptable"))
  end.

Definition no_data {A} : M ETLPipeline A :=
  raise (ValueError "Nenhum dado para processar. Execute extract() primeiro.").

(** [self.stats.transformations_applied += 1] *)
Definition count_transformation : M ETLPipeline unit :=
  assign_stats (λ s, set_transformations_applied (transformations_applied s + 1) s).

Definition extract (file_path : string) (file_type : option string)
  : M ETLPipeline unit :=
  logged_reraise "✗ Erro na extração: {str(e)}"
    (d <- lift_result (extractor_extract ext file_path file_type);;
     assign_df d;;;
     n <- len_df;;
     assign_stats (set_total_records n);;;
     log INFO "✓ Extração concluída: {self.stats.total_records} registros").

Definition remove_duplicates (subset : option (list string)) (keep : value)
  : M ETLPipeline unit :=
  self <- get;;
  if decide (df self = None) then no_data
  else
    logged_reraise "✗ Erro ao remover duplicatas: {str(e)}"
      (initial_count <- len_df;;
       d <- on_df (DataTransformer.remove_duplicates subset keep);;
       assign_df d;;;
       n <- len_df;;
       assign_stats (set_duplicates_removed (initial_count - n));;;
       count_transformation).

Definition handle_missing_values (strategy : string) (fill_value : value)
  : M ETLPipeline unit :=
  self <- get;;
  if decide (df self = None) then no_data
  else
    logged_reraise "✗ Erro ao lidar com valores faltantes: {str(e)}"
      (initial_count <- len_df;;
       d <- on_df (DataTransformer.handle_missing_values strategy fill_value);;
       assign_df d;;;
       n <- len_df;;
       assign_stats (set_missing_values_handled (initial_count - n));;;
       count_transformation).

(** The shape the other seven transformations share. *)
Definition transformation (msg : string) (m : M DataFrame DataFrame)
  : M ETLPipeline unit :=
  self <- get;;
  if decide (df self = None) then no_data
  else
    logged_reraise msg
      (d <- on_df m;;
       assign_df d;;;
       count_transformation).

Definition rename_columns (mapping : list (string * string)) : M ETLPipeline unit :=
  transformation "✗ Erro ao renomear colunas: {str(e)}"
    (DataTransformer.rename_columns mapping).

Definition select_columns (columns_ : list string) : M ETLPipeline unit :=
  transformation "✗ Erro ao selecionar colunas: {str(e)}"
    (DataTransformer.select_columns columns_).

Definition filter_rows (condition : DataFrame → result (list bool))
  : M ETLPipeline unit :=
  transformation "✗ Erro ao filtrar linhas: {str(e)}"
    (DataTransformer.filter_rows condition).

Definition convert_types (dtype_mapping : list (string * string))
  : M ETLPipeline unit :=
  transformation "✗ Erro ao converter tipos: {str(e)}"
    (DataTransformer.convert_data_types ext dtype_mapping).

Definition normalize_column (column method : string) : M ETLPipeline unit :=
  transformation "✗ Erro ao normalizar coluna: {str(e)}"
    (DataTransformer.normalize_column ext column method).

Definition add_column (column_name : string)
    (func : labelled_row → result value) : M ETLPipeline unit :=
  transformation "✗ Erro ao adicionar coluna: {str(e)}"
    (DataTransformer.add_calculated_column column_name func).

Definition aggregate (group_by : list string) (agg_func : list (string * string))
  : M ETLPipeline unit :=
  transformation "✗ Erro ao agregar dados: {str(e)}"
    (DataTransformer.aggregate_data ext group_by agg_func).

Definition load (file_path : string) (file_type : option string)
  : M ETLPipeline unit :=
  self <- get;;
  match df self with
  | None => no_data
  | Some d =>
      logged_reraise "✗ Erro no carregamento: {str(e)}"
        (lift_result (loader_load ext d file_path file_type);;;
         log INFO "✓ Carregamento concluído: {file_path}")
  end.

Definition get_stats : M ETLPipeline PipelineStats :=
  self <- get;;
  ret (stats self).

(** [written] is what writing the JSON document to [file_path] gave. *)
Definition save_stats (written : PipelineStats → result unit) : M ETLPipeline unit :=
  logged_reraise "✗ Erro ao salvar estatísticas: {str(e)}"
    (snapshot <- get_stats;;
     lift_result (written snapshot);;;
     log INFO "✓ Estatísticas salvas em: {file_path}").

(** [now] is the reading of [datetime.now().isoformat()]. *)
Definition run (start_time_ : option string) (now : string) : M ETLPipeline unit :=
  let start_time_ := default now start_time_ in
  assign_stats (set_start_time start_time_);;;
  assign_stats (set_status "running");;;
  log INFO "Pipeline iniciado em: {start_time}".

Definition finish (execution_time_ : option Qc) (now : string)
  : M ETLPipeline unit :=
  let end_time_ := now in
  assign_stats (set_end_time end_time_);;;
  assign_stats (set_status "completed");;;
  (match execution_time_ with
   | Some t => assign_stats (set_execution_time t)
   | None => ret tt
   end);;;
  log INFO "Pipeline concluído em: {end_time}";;;
  log INFO "Tempo total: {self.stats.execution_time:.2f}s".

End methods.
End Pipeline.

(** A method call with its arguments. *)
Inductive call :=
  | Extract (file_path : string) (file_type : option string)
  | RemoveDuplicates (subset : option (list string)) (keep : value)
  | HandleMissingValues (strategy : string) (fill_value : value)
  | RenameColumns (mapping : list (string * string))
  | SelectColumns (columns_ : list string)
  | FilterRows (condition : DataFrame → result (list bool))
  | ConvertTypes (dtype_mapping : list (string * string))
  | NormalizeColumn (column method : string)
  | AddColumn (column_name : string) (func : labelled_row → result value)
  | Aggregate (group_by : list string) (agg_func : list (string * string))
  | Load (file_path : string) (file_type : option string)
  | GetStats
  | SaveStats (written : PipelineStats → result unit)
  | Run (start_time_ : option string) (now : string)
  | Finish (execution_time_ : option Qc) (now : string).

Definition exec (ext : Externals) (c : call) : M ETLPipeline unit :=
  match c with
  | Extract p t => Pipeline.extract ext p t
  | RemoveDuplicates subset keep => Pipeline.remove_duplicates subset keep
  | HandleMissingValues strategy v => Pipeline.handle_missing_values strategy v
  | RenameColumns m => Pipeline.rename_columns m
  | SelectColumns cs => Pipeline.select_columns cs
  | FilterRows c => Pipeline.filter_rows c
  | ConvertTypes m => Pipeline.convert_types ext m
  | NormalizeColumn c m => Pipeline.normalize_column ext c m
  | AddColumn n f => Pipeline.add_column n f
  | Aggregate g a => Pipeline.aggregate ext g a
  | Load p t => Pipeline.load ext p t
  | GetStats => Pipeline.get_stats;;; ret tt
  | SaveStats w => Pipeline.save_stats w
  | Run s now => Pipeline.run s now
  | Finish t now => Pipeline.finish t now
  end.

Definition is_transformation (c : call) : bool :=
  match c with
  | RemoveDuplicates _ _ | HandleMissingValues _ _ | RenameColumns _
  | SelectColumns _ | FilterRows _ | ConvertTypes _ | NormalizeColumn _ _
  | AddColumn _ _ | Aggregate _ _ => true
  | _ => false
  end.

(** The instance after a sequence of calls, the caller catching whatever
    a call raises and going on. *)
Definition after (ext : Externals) (cs : list call) (self : ETLPipeline)
  : ETLPipeline :=
  foldl (λ s c, final (exec ext c s)) self cs.

(** ** etl/validators/data_validator.py *)

Record ValidationResult := mkValidationResult {
  is_valid : bool;
  errors : list string;
  warnings : list string
}.

(** The classes a schema names under ["type"]. *)
Inductive pytype := Tstr | Tint | Tfloat | Tbool | TNoneType.

Definition type_of (v : value) : pytype :=
  match v with
  | VNull => TNoneType
  | VBool _ => Tbool
  | VInt _ => Tint
  | VFloat _ => Tfloat
  | VStr _ => Tstr
  end.

(** [bool] is a subclass of [int]. *)
Definition isinstance (v : value) (t : pytype) : bool :=
  match type_of v, t with
  | Tstr, Tstr | Tint, Tint | Tfloat, Tfloat | Tbool, Tbool | Tbool, Tint
  | TNoneType, TNoneType => true
  | _, _ => false
  end.

Definition type_repr (t : pytype) : string :=
  match t with
  | Tstr => "<class 'str'>"
  | Tint => "<class 'int'>"
  | Tfloat => "<class 'float'>"
  | Tbool => "<class 'bool'>"
  | TNoneType => "<class 'NoneType'>"
  end.

(** The rules of one field: ["type" in rules], and the truth of
    [rules.get("email")], [rules.get("numeric")], [rules.get("date")]. *)
Record rules := mkRules {
  rule_type : option pytype;
  rule_email : bool;
  rule_numeric : bool;
  rule_min : option Qc;
  rule_max : option Qc;
  rule_date : bool;
  rule_date_format : option string
}.

Module DataValidator.
Section methods.
Context (ext : Externals).

Definition in_range (lo hi : nat) (c : ascii) : bool :=
  let n := nat_of_ascii c in (lo <=? n)%nat && (n <=? hi)%nat.

Definition is_letter (c : ascii) : bool := in_range 65 90 c || in_range 97 122 c.
Definition is_digit (c : ascii) : bool := in_range 48 57 c.

Definition one_of (chars : string) (c : ascii) : bool :=
  bool_decide (c ∈ list_ascii_of_string chars).

(** [[a-zA-Z0-9._%+-]] and [[a-zA-Z0-9.-]] *)
Definition local_char (c : ascii) : bool :=
  is_letter c || is_digit c || one_of "._%+-" c.
Definition domain_char (c : ascii) : bool :=
  is_letter c || is_digit c || one_of ".-" c.

Fixpoint split_first (sep : ascii) (l : list ascii)
  : option (list ascii * list ascii) :=
  match l with
  | [] => None
  | c :: l' =>
      if decide (c = sep) then Some ([], l')
      else
        match split_first sep l' with
        | Some (a, b) => Some (c :: a, b)
        | None => None
        end
  end.

Definition split_last (sep : ascii) (l : list ascii)
  : option (list ascii * list ascii) :=
  match split_first sep (reverse l) with
  | Some (a, b) => Some (reverse b, reverse a)
  | None => None
  end.

(** [$] also matches just before a newline that ends the string. *)
Definition before_final_newline (l : list ascii) : list ascii :=
  match reverse l with
  | c :: l' => if decide (c = "010"%char) then reverse l' else l
  | [] => l
  end.

(** [re.match(r'^[a-zA-Z0-9._%+-]+@[a-zA-Z0-9.-]+\.[a-zA-Z]{2,}$', email)] *)
Definition match_email (email : string) : bool :=
  match split_first "@"%char (before_final_newline (list_ascii_of_string email)) with
  | None => false
  | Some (local, rest) =>
      match split_last "."%char rest with
      | None => false
      | Some (domain, tld) =>
          negb (bool_decide (local = [])) && forallb local_char local
          && negb (bool_decide (domain = [])) && forallb domain_char domain
          && (2 <=? length tld)%nat && forallb is_letter tld
      end
  end.

Definition validate_email (email : value) : bool :=
  match email with
  | VStr s => match_email s
  | _ => false
  end.

(** [float(value)] *)
Definition float (v : value) : option Qc :=
  match v with
  | VInt n => Some (Qc_of_Z n)
  | VFloat q => Some q
  | VBool b => Some (if b then 1%Qc else 0%Qc)
  | VStr s => float_of_str ext s
  | VNull => None
  end.

(** [bound is not None and num < bound], and the same with [num > bound] *)
Definition below (num : Qc) (bound : option Qc) : bool :=
  match bound with
  | Some lo => bool_decide (num < lo)%Qc
  | None => false
  end.

Definition below_opt (bound : option Qc) (num : Qc) : bool :=
  match bound with
  | Some hi => bool_decide (hi < num)%Qc
  | None => false
  end.

Definition validate_numeric (v : value) (min_val max_val : option Qc) : bool :=
  match float v with
  | None => false
  | Some num =>
      if below num min_val then false
      else if below_opt max_val num then false
      else true
  end.

Definition validate_date (date_str : value) (format : string) : bool :=
  match date_str with
  | VStr s => strptime ext s format
  | _ => false
  end.

(** [str(value)] *)
Definition str (v : value) : string :=
  match v with
  | VNull => "None"
  | VBool b => if b then "True" else "False"
  | VInt n => pretty n
  | VFloat q => str_of_float ext q
  | VStr s => s
  end.

(** The body of the loop over [schema.items()]: the messages one field
    appends to [errors]. *)
Definition check_field (row_ : labelled_row) (field : string) (r : rules)
  : list string :=
  match pd.lookup_str field row_ with
  | None => ["Campo obrigatório ausente: " +:+ field]
  | Some v =>
      (match rule_type r with
       | Some expected_type =>
           if isinstance v expected_type then []
           else ["Campo " +:+ field +:+ ": tipo esperado " +:+ type_repr expected_type
                 +:+ ", recebido " +:+ type_repr (type_of v)]
       | None => []
       end)
      ++ (if rule_email r && negb (validate_email (VStr (str v)))
          then ["Campo " +:+ field +:+ ": email inválido"] else [])
      ++ (if rule_numeric r && negb (validate_numeric v (rule_min r) (rule_max r))
          then ["Campo " +:+ field +:+ ": valor numérico inválido"] else [])
      ++ (if rule_date r then
            let date_format := default "%Y-%m-%d" (rule_date_format r) in
            if validate_date (VStr (str v)) date_format then []
            else ["Campo " +:+ field +:+ ": data inválida (formato esperado: "
                  +:+ date_format +:+ ")"]
          else [])
  end%list.

Definition validate_row (row_ : labelled_row) (schema : list (string * rules))
  : ValidationResult :=
  let errors := foldl (λ errors item, errors ++ check_field row_ item.1 item.2)%list
                  [] schema in
  let warnings := [] in
  let is_valid := bool_decide (length errors = 0%nat) in
  mkValidationResult is_valid errors warnings.

End methods.
End DataValidator.

(** [msg] has [field] somewhere inside it. *)
Definition mentions (field msg : string) : Prop :=
  ∃ before_ after_, msg = before_ +:+ field +:+ after_.

(** ** Vocabulary of the properties *)

(** A computation that raises leaves its state as it found it. *)
Definition untouched_on_raise {S A} (m : M S A) : Prop :=
  ∀ s e, returned (m s) = Raise e → final (m s) = s.

(** [m], started in state [s], ends in state [s'] with result [r]. *)
Definition runs {S A} (m : M S A) (s : S) (r : result A) (s' : S) : Prop :=
  final (m s) = s' ∧ returned (m s) = r.

(** A computation that never writes its state, and one that never raises. *)
Definition readonly {S A} (m : M S A) : Prop := ∀ s, final (m s) = s.

Definition never_raises {S A} (m : M S A) : Prop :=
  ∀ s, ∃ a, returned (m s) = Ok a.

(** What every method but [extract] raises while [self.df] is [None]. *)
Definition precondition_error : exn :=
  ValueError "Nenhum dado para processar. Execute extract() primeiro.".

Definition counted (s : PipelineStats) : PipelineStats :=
  set_transformations_applied (transformations_applied s + 1) s.

(** The transformer method behind a transformation of the orchestrator,
    and the counter the orchestrator writes besides
    [transformations_applied]. *)
Definition transformer_call (ext : Externals) (c : call) : M DataFrame DataFrame :=
  match c with
  | RemoveDuplicates subset keep => DataTransformer.remove_duplicates subset keep
  | HandleMissingValues strategy v => DataTransformer.handle_missing_values strategy v
  | RenameColumns m => DataTransformer.rename_columns m
  | SelectColumns cs => DataTransformer.select_columns cs
  | FilterRows c => DataTransformer.filter_rows c
  | ConvertTypes m => DataTransformer.convert_data_types ext m
  | NormalizeColumn c m => DataTransformer.normalize_column ext c m
  | AddColumn n f => DataTransformer.add_calculated_column n f
  | Aggregate g a => DataTransformer.aggregate_data ext g a
  | _ => get
  end.

Definition counter_update (c : call) (d d' : DataFrame) (s : PipelineStats)
  : PipelineStats :=
  match c with
  | RemoveDuplicates _ _ => set_duplicates_removed (len d - len d') s
  | HandleMissingValues _ _ => set_missing_values_handled (len d - len d') s
  | _ => s
  end.

Definition needs_table (c : call) : bool :=
  is_transformation c || match c with Load _ _ => true | _ => false end.

Definition is_extract (c : call) : bool :=
  match c with Extract _ _ => true | _ => false end.

(** The counter an orchestrator method writes the row difference to. *)
Definition written_counter (c : call) : option (PipelineStats → Z) :=
  match c with
  | RemoveDuplicates _ _ => Some duplicates_removed
  | HandleMissingValues _ _ => Some missing_values_handled
  | _ => None
  end.

(** The moves of [status] the specification allows: none, or one along
    pending, running, completed, or from running to failed. *)
Definition lifecycle_step (s s' : string) : Prop :=
  s' = s
  ∨ (s = "pending" ∧ s' = "running")
  ∨ (s = "running" ∧ s' = "completed")
  ∨ (s = "running" ∧ s' = "failed").

(** What a call makes of [status]. *)
Definition status_after (c : call) (s : string) : string :=
  match c with
  | Run _ _ => "running"
  | Finish _ _ => "completed"
  | _ => s
  end.

(** Every row has a cell under every label. *)
Definition well_formed (d : DataFrame) : Prop :=
  Forall (λ r : row, length r.2 = length (columns d)) (data d).



(** *** Frames and collaborators of the examples *)

(** Collaborators that read no file and convert nothing. *)
Definition sample_externals : Externals := {|
  np_sqrt := λ q, q;
  astype := λ cells _, Ok cells;
  groupby_agg := λ d _ _, Ok d;
  extractor_extract := λ _ _, Raise (OtherError "file not found");
  loader_load := λ _ _ _, Ok tt;
  str_of_float := λ _, "";
  float_of_str := λ _, None;
  strptime := λ _ _, false
|}.

(** Scenario A of the specification. *)
Definition scenario_A : DataFrame :=
  mkDataFrame ["id"; "email"]
    [(0%nat, [VInt 1; VStr "a@x.com"]);
     (1%nat, [VInt 1; VStr "a@x.com"]);
     (2%nat, [VInt 2; VStr "b@x.com"])].

(** Scenarios B and C. *)
Definition scenario_B : DataFrame :=
  mkDataFrame ["age"] [(0%nat, [VInt 10]); (1%nat, [VInt 20]); (2%nat, [VInt 30])].

Definition scenario_C : DataFrame :=
  mkDataFrame ["age"] [(0%nat, [VInt 10]); (1%nat, [VInt 10]); (2%nat, [VInt 10])].

(** [dataframe_with_missing] of tests/test_transformers.py. *)
Definition dataframe_with_missing : DataFrame :=
  mkDataFrame ["id"; "name"; "age"; "salary"]
    [(0%nat, [VInt 1; VStr "Alice"; VFloat (Qc_of_Z 25); VFloat (Qc_of_Z 50000)]);
     (1%nat, [VInt 2; VStr "Bob"; VNull; VFloat (Qc_of_Z 60000)]);
     (2%nat, [VInt 3; VNull; VFloat (Qc_of_Z 35); VFloat (Qc_of_Z 70000)]);
     (3%nat, [VInt 4; VStr "David"; VFloat (Qc_of_Z 40); VNull]);
     (4%nat, [VInt 5; VStr "Eve"; VFloat (Qc_of_Z 45); VFloat (Qc_of_Z 90000)])].

Definition holding (d : DataFrame) : ETLPipeline :=
  mkETLPipeline (Some d) PipelineStats_default [].

(** ** Vocabulary of the further properties *)

Definition is_ok {A} (r : result A) : bool :=
  match r with Ok _ => true | Raise _ => false end.

(** The statistics a call leaves behind. *)
Definition stats_after (ext : Externals) (c : call) (self : ETLPipeline)
  : PipelineStats :=
  match c with
  | Extract file_path file_type =>
      match extractor_extract ext file_path file_type with
      | Ok d => set_total_records (len d) (stats self)
      | Raise _ => stats self
      end
  | Run start_time_ now =>
      set_status "running" (set_start_time (default now start_time_) (stats self))
  | Finish execution_time_ now =>
      match execution_time_ with
      | Some t => set_execution_time t
      | None => λ s, s
      end (set_status "completed" (set_end_time now (stats self)))
  | Load _ _ | GetStats | SaveStats _ => stats self
  | _ =>
      match df self with
      | Some d =>
          match returned (transformer_call ext c d) with
          | Ok d' => counted (counter_update c d d' (stats self))
          | Raise _ => stats self
          end
      | None => stats self
      end
  end.

(** The transformations of a sequence of calls that returned. *)
Fixpoint successes (ext : Externals) (cs : list call) (self : ETLPipeline) : nat :=
  match cs with
  | [] => 0
  | c :: cs' =>
      ((if is_transformation c && is_ok (returned (exec ext c self)) then 1 else 0)
       + successes ext cs' (final (exec ext c self)))%nat
  end.


(** Of a run of cells, the last and the first one that is present;
    missing when none is. *)
Definition last_present (cells : list value) : value :=
  default VNull (last (pd.notna cells)).
Definition first_present (cells : list value) : value :=
  default VNull (head (pd.notna cells)).

(** A column read from the top, every missing cell taking the cell
    before it; [prev] stands before the first cell. *)
Fixpoint propagate (prev : value) (cells : list value) : list value :=
  match cells with
  | [] => []
  | c :: cells' =>
      let v := if isnull c then prev else c in
      v :: propagate v cells'
  end.

(** The cell of a row under a label. *)
Definition cell (cols : list string) (name : string) (cells : list value)
  : value :=
  default VNull (head (pd.cells_of cols name cells)).

(** The strings the pattern of [validate_email] describes: a local part,
    an at sign, a domain, a dot and a top-level domain of two letters
    or more. *)
Definition email_shape (l : list ascii) : Prop :=
  ∃ local domain tld,
    l = (local ++ "@"%char :: domain ++ "."%char :: tld)%list
    ∧ local ≠ [] ∧ Forall (λ c, DataValidator.local_char c = true) local
    ∧ domain ≠ [] ∧ Forall (λ c, DataValidator.domain_char c = true) domain
    ∧ (2 ≤ length tld)%nat ∧ Forall (λ c, DataValidator.is_letter c = true) tld.

(** * Properties *)

(** ** Dropping duplicated rows *)

Section drop_duplicated.
Context {A K : Type} `{EqDecision K} (key : A → K).











Lemma filter_all (P : A → Prop) `{∀ x, Decision (P x)} (l : list A) :
  (∀ x, x ∈ l → P x) → filter P l = l.
Proof.
  induction l as [|x l IH]; intros HP; [done|].
  rewrite filter_cons_True by (apply HP; left).
  f_equal. apply IH. intros y Hy. apply HP. by right.
Qed.





End drop_duplicated.


Lemma filter_none {A} (P : A → Prop) `{∀ x, Decision (P x)} (l : list A) :
  Forall (λ x, ¬ P x) l → filter P l = [].
Proof.
  induction 1 as [|x l Hx _ IH]; [done|]. by rewrite filter_cons_False.
Qed.




(** ** A transformer method that raises has not touched its frame *)

Section monad_rules.
Context {S : Type}.

Lemma readonly_ret {A} (a : A) : readonly (ret (S:=S) a).
Proof. done. Qed.
Lemma readonly_get : readonly (get (S:=S)).
Proof. done. Qed.
Lemma readonly_raise {A} e : readonly (raise (S:=S) (A:=A) e).
Proof. done. Qed.
Lemma readonly_log l msg : readonly (log (S:=S) l msg).
Proof. done. Qed.
Lemma readonly_lift_result {A} (r : result A) : readonly (lift_result (S:=S) r).
Proof. done. Qed.

Lemma readonly_bind {A B} (m : M S A) (k : A → M S B) :
  readonly m → (∀ a, readonly (k a)) → readonly (bind m k).
Proof.
  intros Hm Hk s. unfold bind. specialize (Hm s).
  destruct (m s) as [s1 l1 [a|e]]; simpl in *; [|done].
  rewrite Hk. done.
Qed.

Lemma readonly_logged_reraise {A} msg (m : M S A) :
  readonly m → readonly (logged_reraise msg m).
Proof.
  intros Hm s. unfold logged_reraise. specialize (Hm s).
  by destruct (m s) as [s1 l1 [a|e]].
Qed.

Lemma never_raises_ret {A} (a : A) : never_raises (ret (S:=S) a).
Proof. intros s. by eexists. Qed.
Lemma never_raises_get : never_raises (get (S:=S)).
Proof. intros s. by eexists. Qed.
Lemma never_raises_put s' : never_raises (put (S:=S) s').
Proof. intros s. by eexists. Qed.
Lemma never_raises_log l msg : never_raises (log (S:=S) l msg).
Proof. intros s. by eexists. Qed.

Lemma never_raises_bind {A B} (m : M S A) (k : A → M S B) :
  never_raises m → (∀ a, never_raises (k a)) → never_raises (bind m k).
Proof.
  intros Hm Hk s. unfold bind. destruct (Hm s) as [a Ha]. rewrite Ha. simpl.
  apply Hk.
Qed.

Lemma never_raises_logged_swallow msg (m : M S unit) :
  never_raises (logged_swallow msg m).
Proof.
  intros s. unfold logged_swallow.
  destruct (m s) as [s1 l1 [a|e]]; simpl; by eexists.
Qed.

Lemma never_raises_for_each {A} (l : list A) (body : A → M S unit) :
  (∀ a, never_raises (body a)) → never_raises (for_each l body).
Proof.
  intros Hbody. induction l as [|a l IH]; simpl.
  - apply never_raises_ret.
  - apply never_raises_bind; [apply Hbody|by intros _].
Qed.

Lemma untouched_readonly {A} (m : M S A) : readonly m → untouched_on_raise m.
Proof. intros Hm s e _. apply Hm. Qed.

Lemma untouched_never_raises {A} (m : M S A) :
  never_raises m → untouched_on_raise m.
Proof. intros Hm s e He. destruct (Hm s) as [a Ha]. congruence. Qed.

Lemma untouched_bind_readonly {A B} (m : M S A) (k : A → M S B) :
  readonly m → (∀ a, untouched_on_raise (k a)) → untouched_on_raise (bind m k).
Proof.
  intros Hm Hk s e. unfold bind. specialize (Hm s).
  destruct (m s) as [s1 l1 [a|e1]]; simpl in *; [|done].
  subst s1. apply Hk.
Qed.

Lemma untouched_bind_never_raises {A B} (m : M S A) (k : A → M S B) :
  untouched_on_raise m → (∀ a, never_raises (k a)) →
  untouched_on_raise (bind m k).
Proof.
  intros Hm Hk s e. unfold bind. specialize (Hm s).
  destruct (m s) as [s1 l1 [a|e1]]; simpl in *.
  - destruct (Hk a s1) as [b Hb]. rewrite Hb. done.
  - intros _. by apply (Hm e1).
Qed.

Lemma untouched_logged_reraise {A} msg (m : M S A) :
  untouched_on_raise m → untouched_on_raise (logged_reraise msg m).
Proof.
  intros Hm s e. unfold logged_reraise. specialize (Hm s).
  destruct (m s) as [s1 l1 [a|e1]]; simpl in *; [done|].
  intros _. by apply (Hm e1).
Qed.

End monad_rules.

Ltac solve_readonly :=
  cbv beta zeta; intros;
  first
    [ apply readonly_ret | apply readonly_get | apply readonly_raise
    | apply readonly_log | apply readonly_lift_result
    | apply readonly_logged_reraise; solve_readonly
    | apply readonly_bind; [solve_readonly | intros; solve_readonly]
    | match goal with
      | |- readonly (if ?b then _ else _) => destruct b; solve_readonly
      end ].

Ltac solve_never_raises :=
  cbv beta zeta; intros;
  first
    [ apply never_raises_ret | apply never_raises_get | apply never_raises_put
    | apply never_raises_log | apply never_raises_logged_swallow
    | apply never_raises_for_each; intros; solve_never_raises
    | apply never_raises_bind; [solve_never_raises | intros; solve_never_raises]
    | match goal with
      | |- never_raises (if ?b then _ else _) => destruct b; solve_never_raises
      end ].

Ltac solve_untouched :=
  cbv beta zeta; intros;
  first
    [ solve [apply untouched_readonly; solve_readonly]
    | solve [apply untouched_never_raises; solve_never_raises]
    | apply untouched_logged_reraise; solve_untouched
    | solve [apply untouched_bind_readonly;
             [solve_readonly | intros; solve_untouched]]
    | solve [apply untouched_bind_never_raises;
             [solve_untouched | intros; solve_never_raises]]
    | match goal with
      | |- untouched_on_raise (if ?b then _ else _) => destruct b; solve_untouched
      end ].

Lemma remove_duplicates_untouched subset keep :
  untouched_on_raise (DataTransformer.remove_duplicates subset keep).
Proof. unfold DataTransformer.remove_duplicates. solve_untouched. Qed.

Lemma handle_missing_values_untouched strategy fill_value :
  untouched_on_raise (DataTransformer.handle_missing_values strategy fill_value).
Proof. unfold DataTransformer.handle_missing_values. solve_untouched. Qed.

Lemma rename_columns_untouched mapping :
  untouched_on_raise (DataTransformer.rename_columns mapping).
Proof. unfold DataTransformer.rename_columns. solve_untouched. Qed.

Lemma select_columns_untouched cs :
  untouched_on_raise (DataTransformer.select_columns cs).
Proof. unfold DataTransformer.select_columns. solve_untouched. Qed.

Lemma filter_rows_untouched condition :
  untouched_on_raise (DataTransformer.filter_rows condition).
Proof. unfold DataTransformer.filter_rows. solve_untouched. Qed.

Lemma convert_data_types_untouched ext mapping :
  untouched_on_raise (DataTransformer.convert_data_types ext mapping).
Proof. unfold DataTransformer.convert_data_types. solve_untouched. Qed.

Lemma normalize_column_untouched ext column method :
  untouched_on_raise (DataTransformer.normalize_column ext column method).
Proof. unfold DataTransformer.normalize_column. solve_untouched. Qed.

Lemma add_calculated_column_untouched name func :
  untouched_on_raise (DataTransformer.add_calculated_column name func).
Proof. unfold DataTransformer.add_calculated_column. solve_untouched. Qed.

Lemma aggregate_data_untouched ext group_by agg_func :
  untouched_on_raise (DataTransformer.aggregate_data ext group_by agg_func).
Proof. unfold DataTransformer.aggregate_data. solve_untouched. Qed.

(** ** The orchestrator's methods, case by case *)

Section runs_rules.
Context {S : Type}.

Lemma runs_ret {A} (a : A) (s : S) : runs (ret a) s (Ok a) s.
Proof. done. Qed.
Lemma runs_get (s : S) : runs get s (Ok s) s.
Proof. done. Qed.
Lemma runs_raise {A} e (s : S) : runs (raise (A:=A) e) s (Raise e) s.
Proof. done. Qed.
Lemma runs_log l msg (s : S) : runs (log l msg) s (Ok tt) s.
Proof. done. Qed.
Lemma runs_lift_result {A} (r : result A) (s : S) : runs (lift_result r) s r s.
Proof. done. Qed.

Lemma runs_bind_ok {A B} (m : M S A) (k : A → M S B) s a s1 r s2 :
  runs m s (Ok a) s1 → runs (k a) s1 r s2 → runs (bind m k) s r s2.
Proof.
  unfold runs, bind. intros [<- Hm] [<- <-].
  destruct (m s) as [s1 l1 r1]; simpl in *. by subst r1.
Qed.

Lemma runs_bind_raise {A B} (m : M S A) (k : A → M S B) s e s1 :
  runs m s (Raise e) s1 → runs (bind m k) s (Raise e) s1.
Proof.
  unfold runs, bind. intros [<- Hm].
  destruct (m s) as [s1 l1 r1]; simpl in *. by subst r1.
Qed.

Lemma runs_logged_reraise {A} msg (m : M S A) s r s1 :
  runs m s r s1 → runs (logged_reraise msg m) s r s1.
Proof.
  unfold runs, logged_reraise. intros [<- <-].
  by destruct (m s) as [s1 l1 [a|e]].
Qed.

End runs_rules.

Section eval_rules.
Context {S : Type}.






End eval_rules.



Section orchestrator.
Context (ext : Externals).

Lemma runs_on_df {A} (m : M DataFrame A) self d r d1 :
  df self = Some d → runs m d r d1 →
  runs (Pipeline.on_df m) self r
    (mkETLPipeline (Some d1) (stats self) (validation_errors self)).
Proof.
  unfold runs, Pipeline.on_df. intros -> [<- <-]. done.
Qed.

Lemma runs_len_df self d :
  df self = Some d → runs Pipeline.len_df self (Ok (len d)) self.
Proof. unfold runs, Pipeline.len_df. by intros ->. Qed.

Lemma runs_assign_df d self :
  runs (Pipeline.assign_df d) self (Ok tt)
    (mkETLPipeline (Some d) (stats self) (validation_errors self)).
Proof. done. Qed.

Lemma runs_assign_stats f self :
  runs (Pipeline.assign_stats f) self (Ok tt)
    (mkETLPipeline (df self) (f (stats self)) (validation_errors self)).
Proof. done. Qed.

Lemma runs_guard {A} (m : M ETLPipeline A) self r s1 :
  (df self ≠ None → runs m self r s1) →
  (df self = None → r = Raise precondition_error ∧ s1 = self) →
  runs (self <- get;; if decide (df self = None) then Pipeline.no_data else m)
    self r s1.
Proof.
  intros Hm Hnone. eapply runs_bind_ok; [apply runs_get|]. cbv beta.
  destruct (decide (df self = None)) as [Hdf|Hdf]; [|by apply Hm].
  destruct (Hnone Hdf) as [-> ->]. apply runs_raise.
Qed.

Lemma transformation_no_data msg m self :
  df self = None →
  runs (Pipeline.transformation msg m) self (Raise precondition_error) self.
Proof. intros Hdf. apply runs_guard; [by intros ?|done]. Qed.

Lemma transformation_ok msg m self d d' d1 :
  df self = Some d → runs m d (Ok d') d1 →
  runs (Pipeline.transformation msg m) self (Ok tt)
    (mkETLPipeline (Some d') (counted (stats self)) (validation_errors self)).
Proof.
  intros Hdf Hm. apply runs_guard; [intros _|congruence].
  apply runs_logged_reraise.
  eapply runs_bind_ok; [by eapply runs_on_df|]. cbv beta.
  eapply runs_bind_ok; [apply runs_assign_df|]. cbv beta.
  done.
Qed.

Lemma transformation_raise msg m self d e d1 :
  df self = Some d → runs m d (Raise e) d1 →
  runs (Pipeline.transformation msg m) self (Raise e)
    (mkETLPipeline (Some d1) (stats self) (validation_errors self)).
Proof.
  intros Hdf Hm. apply runs_guard; [intros _|congruence].
  apply runs_logged_reraise.
  eapply runs_bind_raise. by eapply runs_on_df.
Qed.

Lemma remove_duplicates_no_data subset keep self :
  df self = None →
  runs (Pipeline.remove_duplicates subset keep) self (Raise precondition_error) self.
Proof. intros Hdf. apply runs_guard; [by intros ?|done]. Qed.

Lemma remove_duplicates_ok subset keep self d d' d1 :
  df self = Some d →
  runs (DataTransformer.remove_duplicates subset keep) d (Ok d') d1 →
  runs (Pipeline.remove_duplicates subset keep) self (Ok tt)
    (mkETLPipeline (Some d')
       (counted (set_duplicates_removed (len d - len d') (stats self)))
       (validation_errors self)).
Proof.
  intros Hdf Hm. apply runs_guard; [intros _|congruence].
  apply runs_logged_reraise.
  eapply runs_bind_ok; [by apply runs_len_df|]. cbv beta.
  eapply runs_bind_ok; [by eapply runs_on_df|]. cbv beta.
  eapply runs_bind_ok; [apply runs_assign_df|]. cbv beta.
  eapply runs_bind_ok; [by apply runs_len_df|]. cbv beta.
  eapply runs_bind_ok; [apply runs_assign_stats|]. cbv beta.
  done.
Qed.

Lemma remove_duplicates_raise subset keep self d e d1 :
  df self = Some d →
  runs (DataTransformer.remove_duplicates subset keep) d (Raise e) d1 →
  runs (Pipeline.remove_duplicates subset keep) self (Raise e)
    (mkETLPipeline (Some d1) (stats self) (validation_errors self)).
Proof.
  intros Hdf Hm. apply runs_guard; [intros _|congruence].
  apply runs_logged_reraise.
  eapply runs_bind_ok; [by apply runs_len_df|]. cbv beta.
  eapply runs_bind_raise. by eapply runs_on_df.
Qed.

Lemma handle_missing_values_no_data strategy v self :
  df self = None →
  runs (Pipeline.handle_missing_values strategy v) self
    (Raise precondition_error) self.
Proof. intros Hdf. apply runs_guard; [by intros ?|done]. Qed.

Lemma handle_missing_values_ok strategy v self d d' d1 :
  df self = Some d →
  runs (DataTransformer.handle_missing_values strategy v) d (Ok d') d1 →
  runs (Pipeline.handle_missing_values strategy v) self (Ok tt)
    (mkETLPipeline (Some d')
       (counted (set_missing_values_handled (len d - len d') (stats self)))
       (validation_errors self)).
Proof.
  intros Hdf Hm. apply runs_guard; [intros _|congruence].
  apply runs_logged_reraise.
  eapply runs_bind_ok; [by apply runs_len_df|]. cbv beta.
  eapply runs_bind_ok; [by eapply runs_on_df|]. cbv beta.
  eapply runs_bind_ok; [apply runs_assign_df|]. cbv beta.
  eapply runs_bind_ok; [by apply runs_len_df|]. cbv beta.
  eapply runs_bind_ok; [apply runs_assign_stats|]. cbv beta.
  done.
Qed.

Lemma handle_missing_values_raise strategy v self d e d1 :
  df self = Some d →
  runs (DataTransformer.handle_missing_values strategy v) d (Raise e) d1 →
  runs (Pipeline.handle_missing_values strategy v) self (Raise e)
    (mkETLPipeline (Some d1) (stats self) (validation_errors self)).
Proof.
  intros Hdf Hm. apply runs_guard; [intros _|congruence].
  apply runs_logged_reraise.
  eapply runs_bind_ok; [by apply runs_len_df|]. cbv beta.
  eapply runs_bind_raise. by eapply runs_on_df.
Qed.

Lemma extract_runs file_path file_type self :
  match extractor_extract ext file_path file_type with
  | Ok d =>
      runs (Pipeline.extract ext file_path file_type) self (Ok tt)
        (mkETLPipeline (Some d) (set_total_records (len d) (stats self))
           (validation_errors self))
  | Raise e => runs (Pipeline.extract ext file_path file_type) self (Raise e) self
  end.
Proof.
  unfold Pipeline.extract.
  destruct (extractor_extract ext file_path file_type) as [d|e];
    apply runs_logged_reraise.
  - eapply runs_bind_ok; [apply runs_lift_result|]. cbv beta.
    eapply runs_bind_ok; [apply runs_assign_df|]. cbv beta.
    eapply runs_bind_ok; [by apply runs_len_df|]. cbv beta.
    eapply runs_bind_ok; [apply runs_assign_stats|]. cbv beta.
    done.
  - eapply runs_bind_raise. apply runs_lift_result.
Qed.

Lemma load_runs file_path file_type self :
  ∃ r, runs (Pipeline.load ext file_path file_type) self r self
       ∧ (df self = None → r = Raise precondition_error).
Proof.
  unfold Pipeline.load. destruct (df self) as [d|] eqn:Hdf.
  - destruct (loader_load ext d file_path file_type) as [[]|e] eqn:Hload.
    + exists (Ok tt). split; [|done].
      eapply runs_bind_ok; [apply runs_get|]. cbv beta. rewrite Hdf.
      apply runs_logged_reraise.
      eapply runs_bind_ok; [rewrite Hload; apply runs_lift_result|]. done.
    + exists (Raise e). split; [|done].
      eapply runs_bind_ok; [apply runs_get|]. cbv beta. rewrite Hdf.
      apply runs_logged_reraise.
      eapply runs_bind_raise. rewrite Hload. apply runs_lift_result.
  - exists (Raise precondition_error). split; [|done].
    eapply runs_bind_ok; [apply runs_get|]. cbv beta. rewrite Hdf.
    apply runs_raise.
Qed.

Lemma save_stats_runs written self :
  ∃ r, runs (Pipeline.save_stats written) self r self.
Proof.
  unfold Pipeline.save_stats, Pipeline.get_stats.
  destruct (written (stats self)) as [[]|e] eqn:Hw.
  - exists (Ok tt). apply runs_logged_reraise.
    eapply runs_bind_ok.
    { eapply runs_bind_ok; [apply runs_get|]. apply runs_ret. }
    cbv beta. eapply runs_bind_ok; [rewrite Hw; apply runs_lift_result|]. done.
  - exists (Raise e). apply runs_logged_reraise.
    eapply runs_bind_ok.
    { eapply runs_bind_ok; [apply runs_get|]. apply runs_ret. }
    cbv beta. eapply runs_bind_raise. rewrite Hw. apply runs_lift_result.
Qed.

Lemma run_runs start_time_ now self :
  runs (Pipeline.run start_time_ now) self (Ok tt)
    (mkETLPipeline (df self)
       (set_status "running" (set_start_time (default now start_time_) (stats self)))
       (validation_errors self)).
Proof.
  unfold Pipeline.run. cbv zeta.
  eapply runs_bind_ok; [apply runs_assign_stats|]. cbv beta.
  eapply runs_bind_ok; [apply runs_assign_stats|]. cbv beta.
  done.
Qed.

Lemma finish_runs execution_time_ now self :
  runs (Pipeline.finish execution_time_ now) self (Ok tt)
    (mkETLPipeline (df self)
       (match execution_time_ with
        | Some t => set_execution_time t
        | None => λ s, s
        end (set_status "completed" (set_end_time now (stats self))))
       (validation_errors self)).
Proof.
  unfold Pipeline.finish. cbv zeta.
  eapply runs_bind_ok; [apply runs_assign_stats|]. cbv beta.
  eapply runs_bind_ok; [apply runs_assign_stats|]. cbv beta.
  destruct execution_time_ as [t|].
  - eapply runs_bind_ok; [apply runs_assign_stats|]. cbv beta.
    eapply runs_bind_ok; [apply runs_log|]. done.
  - eapply runs_bind_ok; [apply runs_ret|]. cbv beta.
    eapply runs_bind_ok; [apply runs_log|]. done.
Qed.

End orchestrator.

Section calls.
Context (ext : Externals).

Lemma transformer_call_untouched c : untouched_on_raise (transformer_call ext c).
Proof.
  destruct c; simpl;
    auto using remove_duplicates_untouched, handle_missing_values_untouched,
      rename_columns_untouched, select_columns_untouched, filter_rows_untouched,
      convert_data_types_untouched, normalize_column_untouched,
      add_calculated_column_untouched, aggregate_data_untouched;
    by intros s e.
Qed.

(** The three ways a transformation of the orchestrator ends. *)
Lemma exec_transformation c self :
  is_transformation c = true →
  match df self with
  | None => runs (exec ext c) self (Raise precondition_error) self
  | Some d =>
      match returned (transformer_call ext c d) with
      | Ok d' =>
          runs (exec ext c) self (Ok tt)
            (mkETLPipeline (Some d')
               (counted (counter_update c d d' (stats self)))
               (validation_errors self))
      | Raise e =>
          runs (exec ext c) self (Raise e)
            (mkETLPipeline (Some (final (transformer_call ext c d))) (stats self)
               (validation_errors self))
      end
  end.
Proof.
  intros Hc. destruct (df self) as [d|] eqn:Hdf.
  - destruct (returned (transformer_call ext c d)) as [d'|e] eqn:Hm;
      destruct c; try discriminate;
      cbn [exec transformer_call counter_update] in *;
      unfold Pipeline.rename_columns, Pipeline.select_columns,
        Pipeline.filter_rows, Pipeline.convert_types, Pipeline.normalize_column,
        Pipeline.add_column, Pipeline.aggregate;
      lazymatch goal with
      | |- runs (Pipeline.remove_duplicates _ _) _ (Ok _) _ =>
          eapply remove_duplicates_ok
      | |- runs (Pipeline.remove_duplicates _ _) _ (Raise _) _ =>
          eapply remove_duplicates_raise
      | |- runs (Pipeline.handle_missing_values _ _) _ (Ok _) _ =>
          eapply handle_missing_values_ok
      | |- runs (Pipeline.handle_missing_values _ _) _ (Raise _) _ =>
          eapply handle_missing_values_raise
      | |- runs (Pipeline.transformation _ _) _ (Ok _) _ =>
          eapply transformation_ok
      | |- runs (Pipeline.transformation _ _) _ (Raise _) _ =>
          eapply transformation_raise
      end;
      first [exact Hdf | split; [reflexivity | exact Hm]].
  - destruct c; try discriminate; cbn [exec];
      unfold Pipeline.rename_columns, Pipeline.select_columns,
        Pipeline.filter_rows, Pipeline.convert_types, Pipeline.normalize_column,
        Pipeline.add_column, Pipeline.aggregate;
      lazymatch goal with
      | |- runs (Pipeline.remove_duplicates _ _) _ _ _ =>
          apply remove_duplicates_no_data
      | |- runs (Pipeline.handle_missing_values _ _) _ _ _ =>
          apply handle_missing_values_no_data
      | |- runs (Pipeline.transformation _ _) _ _ _ =>
          apply transformation_no_data
      end; exact Hdf.
Qed.

Lemma counter_update_status c d d' s :
  status (counter_update c d d' s) = status s.
Proof. by destruct c. Qed.

Lemma counter_update_transformations c d d' s :
  transformations_applied (counter_update c d d' s) = transformations_applied s.
Proof. by destruct c. Qed.

(** What a call that is not a transformation does to the instance. *)
Lemma exec_other c self :
  is_transformation c = false →
  ∃ r s1,
    runs (exec ext c) self r s1
    ∧ status (stats s1) = status_after c (status (stats self))
    ∧ (is_extract c = false → df s1 = df self)
    ∧ (needs_table c = true → df self = None →
       r = Raise precondition_error ∧ s1 = self).
Proof.
  intros Hc. destruct c; try discriminate; cbn [exec].
  - pose proof (extract_runs ext file_path file_type self) as H.
    destruct (extractor_extract ext file_path file_type) as [d|e];
      do 2 eexists; (split; [exact H|]); by repeat split.
  - destruct (load_runs ext file_path file_type self) as (r & H & Hnone).
    exists r, self. repeat split; [apply H|apply H|by apply Hnone].
  - exists (Ok tt), self. by repeat split.
  - destruct (save_stats_runs written self) as (r & H).
    exists r, self. by repeat split; try apply H.
  - do 2 eexists. split; [apply run_runs|]. by repeat split.
  - do 2 eexists. split; [apply finish_runs|].
    by destruct execution_time_; repeat split.
Qed.

End calls.

(** ** The claims about the orchestrator *)

(** C1: a transformation that returns has added exactly one to
    [transformations_applied], whatever it did to the rows. *)
Theorem transformation_counted_once (ext : Externals) (c : call)
    (self : ETLPipeline) :
  is_transformation c = true →
  returned (exec ext c self) = Ok tt →
  transformations_applied (stats (final (exec ext c self)))
  = (transformations_applied (stats self) + 1)%Z.
Proof.
  intros Hc Hret. pose proof (exec_transformation ext c self Hc) as H.
  destruct (df self) as [d|].
  - destruct (returned (transformer_call ext c d)) as [d'|e];
      destruct H as [Hfinal Hr]; [|congruence].
    rewrite Hfinal. cbn. by rewrite counter_update_transformations.
  - destruct H as [_ Hr]. congruence.
Qed.

Lemma transformation_counted_once_witness :
  transformations_applied
    (stats (final (exec sample_externals (RemoveDuplicates None (VStr "first"))
                     (holding scenario_A))))
  = (transformations_applied (stats (holding scenario_A)) + 1)%Z.
Proof.
  apply (transformation_counted_once sample_externals
           (RemoveDuplicates None (VStr "first")) (holding scenario_A));
    vm_compute; reflexivity.
Defined.

(** C2: while no table has been extracted, every transformation and
    [load] raise the precondition error and leave the instance as it
    was; no call but [extract] ends with a table; and [extract] ends
    with the table the extractor returned. *)
Theorem table_required (ext : Externals) (c : call) (self : ETLPipeline) :
  df self = None →
  (needs_table c = true →
   returned (exec ext c self) = Raise precondition_error
   ∧ final (exec ext c self) = self)
  ∧ (is_extract c = false → df (final (exec ext c self)) = None)
  ∧ (∀ file_path file_type d,
       c = Extract file_path file_type →
       extractor_extract ext file_path file_type = Ok d →
       df (final (exec ext c self)) = Some d
       ∧ returned (exec ext c self) = Ok tt).
Proof.
  intros Hdf. destruct (is_transformation c) eqn:Ht.
  - pose proof (exec_transformation ext c self Ht) as H.
    rewrite Hdf in H. destruct H as [Hfinal Hr].
    split; [done|]. split; [by rewrite Hfinal|].
    intros ? ? ? ->. discriminate.
  - destruct (exec_other ext c self Ht) as (r & s1 & [Hfinal Hr] & _ & Hkeep & Hneed).
    split; [|split].
    + intros Hc. destruct (Hneed Hc Hdf) as [-> ->]. done.
    + intros Hc. rewrite Hfinal, Hkeep by done. done.
    + intros file_path file_type d -> Hext.
      pose proof (extract_runs ext file_path file_type self) as H.
      rewrite Hext in H. destruct H as [Hf' Hr']. cbn [exec].
      by rewrite Hf'.
Qed.

Lemma table_required_witness :
  returned (exec sample_externals (NormalizeColumn "age" "minmax") ETLPipeline_init)
  = Raise precondition_error
  ∧ final (exec sample_externals (NormalizeColumn "age" "minmax") ETLPipeline_init)
    = ETLPipeline_init.
Proof.
  apply (table_required sample_externals (NormalizeColumn "age" "minmax")
           ETLPipeline_init); reflexivity.
Defined.

(** C9: a transformation that raises leaves the instance, its table
    included, as it was before the call, so that the same or another
    call can follow. *)
Theorem failed_transformation_leaves_table (ext : Externals) (c : call)
    (self : ETLPipeline) (e : exn) :
  is_transformation c = true →
  returned (exec ext c self) = Raise e →
  final (exec ext c self) = self.
Proof.
  intros Hc Hret. pose proof (exec_transformation ext c self Hc) as H.
  destruct (df self) as [d|] eqn:Hdf.
  - destruct (returned (transformer_call ext c d)) as [d'|e'] eqn:Hm;
      destruct H as [Hfinal Hr]; [congruence|].
    rewrite Hfinal, (transformer_call_untouched ext c d e' Hm).
    destruct self; simpl in *. by rewrite Hdf.
  - by destruct H.
Qed.

Lemma failed_transformation_leaves_table_witness :
  final (exec sample_externals (NormalizeColumn "age" "median") (holding scenario_B))
  = holding scenario_B.
Proof.
  apply (failed_transformation_leaves_table sample_externals
           (NormalizeColumn "age" "median") (holding scenario_B)
           (ValueError "Método de normalização desconhecido: median"));
    vm_compute; reflexivity.
Defined.

(** C10: the counter a transformation writes holds the row difference of
    that call alone: after two calls that return, it is the number of
    rows the second one removed, whatever the first one wrote. *)
Theorem counters_overwritten (ext : Externals) (self : ETLPipeline)
    (c1 c2 : call) (counter : PipelineStats → Z) :
  is_transformation c1 = true →
  written_counter c2 = Some counter →
  returned (exec ext c1 self) = Ok tt →
  returned (exec ext c2 (final (exec ext c1 self))) = Ok tt →
  ∃ d1 d2,
    df (final (exec ext c1 self)) = Some d1
    ∧ df (final (exec ext c2 (final (exec ext c1 self)))) = Some d2
    ∧ counter (stats (final (exec ext c2 (final (exec ext c1 self)))))
      = (len d1 - len d2)%Z.
Proof.
  intros Hc1 Hc2 Hret1 Hret2.
  assert (is_transformation c2 = true) as Ht2 by (by destruct c2).
  pose proof (exec_transformation ext c1 self Hc1) as H1.
  destruct (df self) as [d|]; [|destruct H1; congruence].
  destruct (returned (transformer_call ext c1 d)) as [d1|e];
    destruct H1 as [H1 Hr1]; [|congruence].
  pose proof (exec_transformation ext c2 (final (exec ext c1 self)) Ht2) as H2.
  rewrite H1 in H2, Hret2 |- *. cbn [df] in H2.
  destruct (returned (transformer_call ext c2 d1)) as [d2|e];
    destruct H2 as [H2 Hr2]; [|congruence].
  exists d1, d2. rewrite H2. split; [done|]. split; [done|].
  destruct c2; try discriminate; cbn in *; by inversion Hc2.
Qed.

Lemma counters_overwritten_witness :
  ∃ d1 d2,
    df (final (exec sample_externals (RemoveDuplicates None (VStr "first"))
                 (holding scenario_A))) = Some d1
    ∧ df (final (exec sample_externals (RemoveDuplicates (Some ["id"]) (VBool false))
                   (final (exec sample_externals
                             (RemoveDuplicates None (VStr "first"))
                             (holding scenario_A))))) = Some d2
    ∧ duplicates_removed
        (stats (final (exec sample_externals
                         (RemoveDuplicates (Some ["id"]) (VBool false))
                         (final (exec sample_externals
                                   (RemoveDuplicates None (VStr "first"))
                                   (holding scenario_A))))))
      = (len d1 - len d2)%Z.
Proof.
  apply (counters_overwritten sample_externals (holding scenario_A)
           (RemoveDuplicates None (VStr "first"))
           (RemoveDuplicates (Some ["id"]) (VBool false)) duplicates_removed);
    vm_compute; reflexivity.
Defined.

(** ** The life cycle *)

Lemma exec_status (ext : Externals) (c : call) (self : ETLPipeline) :
  status (stats (final (exec ext c self))) = status_after c (status (stats self)).
Proof.
  destruct (is_transformation c) eqn:Ht.
  - pose proof (exec_transformation ext c self Ht) as H.
    assert (status_after c (status (stats self)) = status (stats self)) as ->
      by (by destruct c).
    destruct (df self) as [d|]; [|destruct H as [-> _]; done].
    destruct (returned (transformer_call ext c d)); destruct H as [-> _]; cbn;
      [apply counter_update_status | done].
  - destruct (exec_other ext c self Ht) as (r & s1 & [Hfinal _] & Hst & _).
    by rewrite Hfinal.
Qed.

(** C5, as the orchestrator has it: [run] sets [status] to running and
    [finish] sets it to completed, each from any status; no other call
    changes it; so from a new instance it is never anything but
    pending, running or completed. *)
Theorem status_follows_markers (ext : Externals) :
  (∀ c self,
     status (stats (final (exec ext c self)))
     = status_after c (status (stats self)))
  ∧ (∀ cs,
       status (stats (after ext cs ETLPipeline_init))
       ∈ ["pending"; "running"; "completed"]).
Proof.
  split; [apply exec_status|].
  intros cs. unfold after.
  assert (∀ self, status (stats self) ∈ ["pending"; "running"; "completed"] →
          status (stats (foldl (λ s c, final (exec ext c s)) self cs))
          ∈ ["pending"; "running"; "completed"]) as Hinv.
  { induction cs as [|c cs IH]; intros self Hself; [done|].
    cbn [foldl]. apply IH. rewrite exec_status.
    destruct c; cbn [status_after]; try done; repeat constructor. }
  apply Hinv. by left.
Qed.

(** C5 as stated fails: [finish] on a new instance takes [status] from
    pending to completed, and [run] after it takes it out of completed. *)
Lemma finish_before_run :
  let s0 := ETLPipeline_init in
  let s1 := final (exec sample_externals (Finish None "2025-01-01T00:00:00") s0) in
  let s2 := final (exec sample_externals (Run None "2025-01-01T00:00:01") s1) in
  ¬ lifecycle_step (status (stats s0)) (status (stats s1))
  ∧ ¬ lifecycle_step (status (stats s1)) (status (stats s2)).
Proof.
  vm_compute. split; intros [H|[[H1 H2]|[[H1 H2]|[H1 H2]]]]; discriminate.
Qed.

(** ** Validation of a row *)



Lemma append_empty_r (s : string) : s +:+ "" = s.
Proof.
  induction s as [|c s IH]; [done|].
  change (String c (s +:+ "") = String c s). by rewrite IH.
Qed.



(** ** Arguments the transformer does not know *)




(** ** Missing cells and the counter of the orchestrator *)

(** C4 on the frame of the transformer's own tests: three cells are
    missing and all three are filled, yet the orchestrator records 0,
    the difference of the row counts. *)
Lemma missing_cells_not_recorded :
  pd.isnull_sum_sum dataframe_with_missing = 3%Z
  ∧ returned (exec sample_externals (HandleMissingValues "fill" (VInt 0))
                (holding dataframe_with_missing)) = Ok tt
  ∧ (∃ d, df (final (exec sample_externals (HandleMissingValues "fill" (VInt 0))
                       (holding dataframe_with_missing))) = Some d
          ∧ pd.isnull_sum_sum d = 0%Z)
  ∧ missing_values_handled
      (stats (final (exec sample_externals (HandleMissingValues "fill" (VInt 0))
                       (holding dataframe_with_missing)))) = 0%Z.
Proof.
  split; [vm_compute; reflexivity|]. split; [vm_compute; reflexivity|].
  split; [|vm_compute; reflexivity].
  eexists. split; vm_compute; reflexivity.
Qed.

(** ** Min-max normalization *)

Section minmax.
Local Open Scope Qc_scope.










End minmax.











(** Scenarios B and C of the specification. *)
Example scenario_B_normalized :
  returned (DataTransformer.normalize_column sample_externals "age" "minmax"
              scenario_B)
  = Ok (mkDataFrame ["age"]
          [(0%nat, [VFloat 0%Qc]);
           (1%nat, [VFloat (Q2Qc (1 # 2))]);
           (2%nat, [VFloat 1%Qc])]).
Proof.
  vm_compute. do 2 f_equal.
  repeat (f_equal; try (apply Qc_is_canon; reflexivity)).
Qed.

Example scenario_C_normalized :
  DataTransformer.normalize_column sample_externals "age" "minmax" scenario_C
  = Outcome
      (mkDataFrame ["age"] [(0%nat, [VInt 0]); (1%nat, [VInt 0]); (2%nat, [VInt 0])])
      [(WARNING, "Coluna {column} tem todos os valores iguais. Normalizando para 0.");
       (INFO, "✓ Coluna {column} normalizada (minmax)")]
      (Ok (mkDataFrame ["age"]
             [(0%nat, [VInt 0]); (1%nat, [VInt 0]); (2%nat, [VInt 0])])).
Proof. vm_compute. reflexivity. Qed.

(** Scenario A: one of the two equal rows goes, and the counter says so. *)
Example scenario_A_deduplicated :
  exec sample_externals (RemoveDuplicates None (VStr "first")) (holding scenario_A)
  = Outcome
      (mkETLPipeline
         (Some (mkDataFrame ["id"; "email"]
                  [(0%nat, [VInt 1; VStr "a@x.com"]);
                   (2%nat, [VInt 2; VStr "b@x.com"])]))
         (set_transformations_applied 1
            (set_duplicates_removed 1 PipelineStats_default))
         [])
      [(INFO, "✓ Removidas {removed} duplicatas")]
      (Ok tt).
Proof. vm_compute. reflexivity. Qed.

(** * Further properties *)

(** ** The statistics of the orchestrator *)

Lemma exec_stats (ext : Externals) (c : call) (self : ETLPipeline) :
  stats (final (exec ext c self)) = stats_after ext c self
  ∧ validation_errors (final (exec ext c self)) = validation_errors self.
Proof.
  destruct (is_transformation c) eqn:Ht.
  - pose proof (exec_transformation ext c self Ht) as H.
    assert (stats_after ext c self
            = match df self with
              | Some d =>
                  match returned (transformer_call ext c d) with
                  | Ok d' => counted (counter_update c d d' (stats self))
                  | Raise _ => stats self
                  end
              | None => stats self
              end) as -> by (by destruct c).
    destruct (df self) as [d|]; [|destruct H as [-> _]; done].
    destruct (returned (transformer_call ext c d)); by destruct H as [-> _].
  - destruct c; try discriminate; cbn [exec stats_after].
    + pose proof (extract_runs ext file_path file_type self) as H.
      destruct (extractor_extract ext file_path file_type);
        by destruct H as [-> _].
    + destruct (load_runs ext file_path file_type self) as (r & [-> _] & _). done.
    + done.
    + destruct (save_stats_runs written self) as (r & [-> _]). done.
    + by destruct (run_runs start_time_ now self) as [-> _].
    + by destruct (finish_runs execution_time_ now self) as [-> _].
Qed.

Lemma exec_raise_stats (ext : Externals) (c : call) (self : ETLPipeline) e :
  is_transformation c = true → returned (exec ext c self) = Raise e →
  stats_after ext c self = stats self.
Proof.
  intros Ht Hr. pose proof (exec_transformation ext c self Ht) as H.
  assert (stats_after ext c self
          = match df self with
            | Some d =>
                match returned (transformer_call ext c d) with
                | Ok d' => counted (counter_update c d d' (stats self))
                | Raise _ => stats self
                end
            | None => stats self
            end) as -> by (by destruct c).
  destruct (df self) as [d|]; [|done].
  destruct (returned (transformer_call ext c d)); [|done].
  destruct H as [_ H]. congruence.
Qed.

Lemma exec_ok_stats (ext : Externals) (c : call) (self : ETLPipeline) :
  is_transformation c = true → returned (exec ext c self) = Ok tt →
  transformations_applied (stats_after ext c self)
  = (transformations_applied (stats self) + 1)%Z.
Proof.
  intros Ht Hr. pose proof (exec_transformation ext c self Ht) as H.
  assert (stats_after ext c self
          = match df self with
            | Some d =>
                match returned (transformer_call ext c d) with
                | Ok d' => counted (counter_update c d d' (stats self))
                | Raise _ => stats self
                end
            | None => stats self
            end) as -> by (by destruct c).
  destruct (df self) as [d|]; [|destruct H; congruence].
  destruct (returned (transformer_call ext c d)); [|destruct H; congruence].
  cbn. by rewrite counter_update_transformations.
Qed.

(** X1: [transformations_applied] counts the transformations that
    returned: after any sequence of calls it has grown by their number,
    calls that raised and calls of other methods adding nothing. *)
Theorem transformations_applied_counts (ext : Externals) (cs : list call)
    (self : ETLPipeline) :
  transformations_applied (stats (after ext cs self))
  = (transformations_applied (stats self) + Z.of_nat (successes ext cs self))%Z.
Proof.
  unfold after. revert self. induction cs as [|c cs IH]; intros self.
  - cbn. lia.
  - cbn [foldl successes]. rewrite IH.
    destruct (exec_stats ext c self) as [-> _].
    destruct (is_transformation c) eqn:Ht; cbn [andb].
    + destruct (returned (exec ext c self)) as [[]|e] eqn:Hr; cbn [is_ok].
      * rewrite (exec_ok_stats ext c self Ht Hr). lia.
      * rewrite (exec_raise_stats ext c self e Ht Hr). lia.
    + assert (transformations_applied (stats_after ext c self)
              = transformations_applied (stats self)) as ->; [|lia].
      destruct c; try discriminate; cbn [stats_after]; try done.
      * by destruct (extractor_extract ext file_path file_type).
      * by destruct execution_time_.
Qed.

(** What a transformation leaves alone in the statistics. *)
Lemma stats_after_transformation (ext : Externals) (c : call) (self : ETLPipeline) :
  is_transformation c = true →
  let s := stats_after ext c self in
  total_records s = total_records (stats self)
  ∧ valid_records s = valid_records (stats self)
  ∧ invalid_records s = invalid_records (stats self)
  ∧ execution_time s = execution_time (stats self)
  ∧ start_time s = start_time (stats self)
  ∧ end_time s = end_time (stats self).
Proof.
  intros Ht.
  assert (stats_after ext c self
          = match df self with
            | Some d =>
                match returned (transformer_call ext c d) with
                | Ok d' => counted (counter_update c d d' (stats self))
                | Raise _ => stats self
                end
            | None => stats self
            end) as -> by (by destruct c).
  destruct (df self) as [d|]; [|done].
  destruct (returned (transformer_call ext c d)); [|done].
  by destruct c.
Qed.

(** X2: no method of the orchestrator writes [valid_records],
    [invalid_records] or [validation_errors]: after any sequence of
    calls they are what they were, 0, 0 and the empty list on an
    instance that started new. *)
Theorem validation_fields_never_written (ext : Externals) (cs : list call)
    (self : ETLPipeline) :
  valid_records (stats (after ext cs self)) = valid_records (stats self)
  ∧ invalid_records (stats (after ext cs self)) = invalid_records (stats self)
  ∧ validation_errors (after ext cs self) = validation_errors self.
Proof.
  unfold after. revert self. induction cs as [|c cs IH]; intros self; [done|].
  cbn [foldl]. destruct (IH (final (exec ext c self))) as (-> & -> & ->).
  destruct (exec_stats ext c self) as [-> ->].
  destruct (is_transformation c) eqn:Ht.
  - by destruct (stats_after_transformation ext c self Ht) as (_ & -> & -> & _).
  - destruct c; try discriminate; cbn [stats_after]; try done.
    + by destruct (extractor_extract ext file_path file_type).
    + by destruct execution_time_.
Qed.

(** X3: [total_records] is written by a successful [extract] and by
    nothing else: a transformation that removes rows leaves it at the
    number of rows extracted. *)
Theorem total_records_only_by_extract (ext : Externals) (c : call)
    (self : ETLPipeline) :
  total_records (stats (final (exec ext c self)))
  = match c with
    | Extract file_path file_type =>
        match extractor_extract ext file_path file_type with
        | Ok d => len d
        | Raise _ => total_records (stats self)
        end
    | _ => total_records (stats self)
    end.
Proof.
  destruct (exec_stats ext c self) as [-> _].
  destruct (is_transformation c) eqn:Ht.
  - destruct (stats_after_transformation ext c self Ht) as (-> & _).
    by destruct c.
  - destruct c; try discriminate; cbn [stats_after]; try done.
    + by destruct (extractor_extract ext file_path file_type).
    + by destruct execution_time_.
Qed.

(** X4: the orchestrator measures no time itself: [execution_time]
    changes only when [finish] is given a duration, [start_time] only in
    [run], which takes the caller's value before the clock's, and
    [end_time] only in [finish]. *)
Theorem time_fields (ext : Externals) (c : call) (self : ETLPipeline) :
  execution_time (stats (final (exec ext c self)))
  = match c with
    | Finish (Some t) _ => t
    | _ => execution_time (stats self)
    end
  ∧ start_time (stats (final (exec ext c self)))
    = match c with
      | Run start_time_ now => default now start_time_
      | _ => start_time (stats self)
      end
  ∧ end_time (stats (final (exec ext c self)))
    = match c with
      | Finish _ now => now
      | _ => end_time (stats self)
      end.
Proof.
  destruct (exec_stats ext c self) as [-> _].
  destruct (is_transformation c) eqn:Ht.
  - destruct (stats_after_transformation ext c self Ht) as (_ & _ & _ & -> & -> & ->).
    by destruct c.
  - destruct c; try discriminate; cbn [stats_after]; try done.
    + by destruct (extractor_extract ext file_path file_type).
    + by destruct execution_time_.
Qed.

(** X5: an extraction that fails leaves the instance as it was; one
    that succeeds replaces the table and writes [total_records], and
    keeps every other counter, [transformations_applied] included. *)
Theorem extract_replaces_table (ext : Externals) (file_path : string)
    (file_type : option string) (self : ETLPipeline) :
  match extractor_extract ext file_path file_type with
  | Ok d =>
      final (exec ext (Extract file_path file_type) self)
      = mkETLPipeline (Some d) (set_total_records (len d) (stats self))
          (validation_errors self)
      ∧ returned (exec ext (Extract file_path file_type) self) = Ok tt
  | Raise e =>
      final (exec ext (Extract file_path file_type) self) = self
      ∧ returned (exec ext (Extract file_path file_type) self) = Raise e
  end.
Proof.
  pose proof (extract_runs ext file_path file_type self) as H. cbn [exec].
  by destruct (extractor_extract ext file_path file_type).
Qed.

(** X6: [load], [get_stats] and [save_stats] only read: whether they
    return or raise, the instance is as before.  [load] gives the table
    to the loader and returns what the loader returns; [save_stats]
    hands the writer the current statistics. *)
Theorem readers_leave_instance (ext : Externals) (self : ETLPipeline) :
  (∀ file_path file_type,
     final (exec ext (Load file_path file_type) self) = self
     ∧ returned (exec ext (Load file_path file_type) self)
       = match df self with
         | Some d => loader_load ext d file_path file_type
         | None => Raise precondition_error
         end)
  ∧ (final (exec ext GetStats self) = self
     ∧ returned (Pipeline.get_stats self) = Ok (stats self))
  ∧ (∀ written,
       final (exec ext (SaveStats written) self) = self
       ∧ returned (exec ext (SaveStats written) self) = written (stats self)).
Proof.
  split; [|split; [done|]].
  - intros file_path file_type. cbn [exec]. unfold Pipeline.load.
    change (runs
              (self0 <- get;;
               match df self0 with
               | Some d =>
                   logged_reraise "✗ Erro no carregamento: {str(e)}"
                     (lift_result (loader_load ext d file_path file_type);;;
                      log INFO "✓ Carregamento concluído: {file_path}")
               | None => Pipeline.no_data
               end) self
              match df self with
              | Some d => loader_load ext d file_path file_type
              | None => Raise precondition_error
              end self).
    eapply runs_bind_ok; [apply runs_get|]. cbv beta.
    destruct (df self) as [d|]; [|apply runs_raise].
    apply runs_logged_reraise.
    destruct (loader_load ext d file_path file_type) as [[]|e].
    + eapply runs_bind_ok; [apply runs_lift_result|]. apply runs_log.
    + eapply runs_bind_raise. apply runs_lift_result.
  - intros written. cbn [exec]. unfold Pipeline.save_stats, Pipeline.get_stats.
    change (runs
              (logged_reraise "✗ Erro ao salvar estatísticas: {str(e)}"
                 (snapshot <- (self0 <- get;; ret (stats self0));;
                  lift_result (written snapshot);;;
                  log INFO "✓ Estatísticas salvas em: {file_path}"))
              self (written (stats self)) self).
    apply runs_logged_reraise.
    eapply runs_bind_ok.
    { eapply runs_bind_ok; [apply runs_get|]. apply runs_ret. }
    cbv beta. destruct (written (stats self)) as [[]|e].
    + eapply runs_bind_ok; [apply runs_lift_result|]. apply runs_log.
    + eapply runs_bind_raise. apply runs_lift_result.
Qed.

(** ** Missing values *)

Lemma runs_functional {S A} (m : M S A) s r r' s1 s1' :
  runs m s r s1 → runs m s r' s1' → r = r' ∧ s1 = s1'.
Proof. unfold runs. intros [<- <-] [<- <-]. done. Qed.

Lemma sum_list_zero (l : list nat) : sum_list l = 0%nat ↔ Forall (λ n, n = 0%nat) l.
Proof.
  induction l as [|n l IH]; simpl; [by split|].
  rewrite Forall_cons, <-IH. lia.
Qed.

Lemma isnull_sum_sum_zero (d : DataFrame) :
  pd.isnull_sum_sum d = 0%Z
  ↔ Forall (λ r : row, pd.count_nulls r.2 = 0%nat) (data d).
Proof.
  unfold pd.isnull_sum_sum.
  trans (sum_list ((λ r : row, pd.count_nulls r.2) <$> data d) = 0%nat); [lia|].
  by rewrite sum_list_zero, Forall_fmap.
Qed.

Lemma count_nulls_zero (cells : list value) :
  pd.count_nulls cells = 0%nat ↔ Forall (λ c, c ≠ VNull) cells.
Proof.
  unfold pd.count_nulls. induction cells as [|c cells IH]; [by split|].
  rewrite filter_cons, Forall_cons. destruct (decide (c = VNull)) as [->|Hc].
  - simpl. split; [lia|by intros [? _]].
  - rewrite IH. split; [by split|by intros [_ ?]].
Qed.

(** The four strategies, evaluated. *)
Lemma handle_missing_values_nothing strategy v d :
  pd.isnull_sum_sum d = 0%Z →
  runs (DataTransformer.handle_missing_values strategy v) d (Ok d) d.
Proof.
  intros Hz. unfold DataTransformer.handle_missing_values.
  apply runs_logged_reraise. eapply runs_bind_ok; [apply runs_get|].
  cbv beta zeta. rewrite decide_True by done.
  eapply runs_bind_ok; [apply runs_log|]. apply runs_ret.
Qed.

Lemma handle_missing_values_drop v d :
  pd.isnull_sum_sum d ≠ 0%Z →
  runs (DataTransformer.handle_missing_values "drop" v) d (Ok (pd.dropna d)) d.
Proof.
  intros Hz. unfold DataTransformer.handle_missing_values.
  apply runs_logged_reraise. eapply runs_bind_ok; [apply runs_get|].
  cbv beta zeta. rewrite decide_False by done.
  rewrite (decide_True (P:="drop" = "drop")) by done.
  eapply runs_bind_ok; [|apply runs_ret].
  eapply runs_bind_ok; [apply runs_log|]. apply runs_ret.
Qed.

Lemma handle_missing_values_fill v d :
  pd.isnull_sum_sum d ≠ 0%Z →
  runs (DataTransformer.handle_missing_values "fill" v) d (pd.fillna d v) d.
Proof.
  intros Hz. unfold DataTransformer.handle_missing_values.
  apply runs_logged_reraise. eapply runs_bind_ok; [apply runs_get|].
  cbv beta zeta. rewrite decide_False by done.
  rewrite (decide_False (P:="fill" = "drop")) by done.
  rewrite (decide_True (P:="fill" = "fill")) by done.
  destruct (pd.fillna d v) as [d'|e] eqn:Hfill.
  - eapply runs_bind_ok; [|apply runs_ret].
    eapply runs_bind_ok; [apply runs_lift_result|].
    eapply runs_bind_ok; [apply runs_log|]. apply runs_ret.
  - eapply runs_bind_raise. eapply runs_bind_raise.
    apply runs_lift_result.
Qed.

Lemma handle_missing_values_forward v d :
  pd.isnull_sum_sum d ≠ 0%Z →
  runs (DataTransformer.handle_missing_values "forward_fill" v) d
    (Ok (pd.ffill d)) d.
Proof.
  intros Hz. unfold DataTransformer.handle_missing_values.
  apply runs_logged_reraise. eapply runs_bind_ok; [apply runs_get|].
  cbv beta zeta. rewrite decide_False by done.
  rewrite (decide_False (P:="forward_fill" = "drop")) by done.
  rewrite (decide_False (P:="forward_fill" = "fill")) by done.
  rewrite (decide_True (P:="forward_fill" = "forward_fill")) by done.
  eapply runs_bind_ok; [|apply runs_ret].
  eapply runs_bind_ok; [apply runs_log|]. apply runs_ret.
Qed.

Lemma handle_missing_values_backward v d :
  pd.isnull_sum_sum d ≠ 0%Z →
  runs (DataTransformer.handle_missing_values "backward_fill" v) d
    (Ok (pd.bfill d)) d.
Proof.
  intros Hz. unfold DataTransformer.handle_missing_values.
  apply runs_logged_reraise. eapply runs_bind_ok; [apply runs_get|].
  cbv beta zeta. rewrite decide_False by done.
  rewrite (decide_False (P:="backward_fill" = "drop")) by done.
  rewrite (decide_False (P:="backward_fill" = "fill")) by done.
  rewrite (decide_False (P:="backward_fill" = "forward_fill")) by done.
  rewrite (decide_True (P:="backward_fill" = "backward_fill")) by done.
  eapply runs_bind_ok; [|apply runs_ret].
  eapply runs_bind_ok; [apply runs_log|]. apply runs_ret.
Qed.

Lemma handle_missing_values_unknown strategy v d :
  pd.isnull_sum_sum d ≠ 0%Z →
  strategy ≠ "drop" → strategy ≠ "fill" → strategy ≠ "forward_fill" →
  strategy ≠ "backward_fill" →
  runs (DataTransformer.handle_missing_values strategy v) d
    (Raise (ValueError ("Estratégia desconhecida: " +:+ strategy))) d.
Proof.
  intros Hz ? ? ? ?. unfold DataTransformer.handle_missing_values.
  apply runs_logged_reraise. eapply runs_bind_ok; [apply runs_get|].
  cbv beta zeta. rewrite !decide_False by done.
  eapply runs_bind_raise. apply runs_raise.
Qed.

(** X7: with the strategy drop the transformer returns exactly the rows
    that have no missing cell, in their order and under the same
    labels, so that no cell of the result is missing. *)
Theorem drop_leaves_no_missing (v : value) (d : DataFrame) :
  ∃ d',
    runs (DataTransformer.handle_missing_values "drop" v) d (Ok d') d
    ∧ columns d' = columns d
    ∧ data d' = filter (λ r : row, Forall (λ c, c ≠ VNull) r.2) (data d)
    ∧ pd.isnull_sum_sum d' = 0%Z.
Proof.
  assert (∀ l : list row,
            filter (λ r : row, pd.count_nulls r.2 = 0%nat) l
            = filter (λ r : row, Forall (λ c, c ≠ VNull) r.2) l) as Hfilter.
  { intros l. apply list_filter_iff. intros r. apply count_nulls_zero. }
  destruct (decide (pd.isnull_sum_sum d = 0%Z)) as [Hz|Hz].
  - exists d. split; [by apply handle_missing_values_nothing|].
    split; [done|]. split; [|done].
    rewrite <-Hfilter. symmetry. apply filter_all.
    by apply Forall_forall, isnull_sum_sum_zero.
  - exists (pd.dropna d). split; [by apply handle_missing_values_drop|].
    split; [done|]. split; [apply Hfilter|].
    apply isnull_sum_sum_zero, Forall_forall.
    by intros r [? _]%list_elem_of_filter.
Qed.






Lemma ffill_rows_length prev (rows : list row) :
  length (pd.ffill_rows prev rows) = length rows.
Proof.
  revert prev. induction rows as [|r rows IH]; intros prev; [done|].
  simpl. by rewrite IH.
Qed.

(** The strategies that fill keep every row. *)
Lemma filling_keeps_rows strategy v d d' d1 :
  strategy ≠ "drop" →
  runs (DataTransformer.handle_missing_values strategy v) d (Ok d') d1 →
  len d' = len d.
Proof.
  intros Hs Hrun. unfold len. f_equal.
  destruct (decide (pd.isnull_sum_sum d = 0%Z)) as [Hz|Hz].
  { destruct (runs_functional _ _ _ _ _ _ Hrun
                (handle_missing_values_nothing strategy v d Hz)) as [[= ->] _].
    done. }
  destruct (decide (strategy = "fill")) as [->|Hfill].
  { destruct (runs_functional _ _ _ _ _ _ Hrun
                (handle_missing_values_fill v d Hz)) as [Heq _].
    destruct v; try discriminate; injection Heq as ->; simpl;
      by rewrite length_fmap. }
  destruct (decide (strategy = "forward_fill")) as [->|Hforward].
  { destruct (runs_functional _ _ _ _ _ _ Hrun
                (handle_missing_values_forward v d Hz)) as [[= ->] _].
    simpl. apply ffill_rows_length. }
  destruct (decide (strategy = "backward_fill")) as [->|Hbackward].
  { destruct (runs_functional _ _ _ _ _ _ Hrun
                (handle_missing_values_backward v d Hz)) as [[= ->] _].
    simpl. by rewrite length_reverse, ffill_rows_length, length_reverse. }
  destruct (runs_functional _ _ _ _ _ _ Hrun
              (handle_missing_values_unknown strategy v d Hz Hs Hfill Hforward
                 Hbackward)) as [[=] _].
Qed.

(** X10: for every strategy but drop, a [handle_missing_values] of the
    orchestrator that returns has kept every row and has written 0 to
    [missing_values_handled], however many cells it filled. *)
Theorem filling_records_zero (ext : Externals) (self : ETLPipeline)
    (strategy : string) (v : value) :
  strategy ≠ "drop" →
  returned (exec ext (HandleMissingValues strategy v) self) = Ok tt →
  missing_values_handled
    (stats (final (exec ext (HandleMissingValues strategy v) self))) = 0%Z
  ∧ ∃ d d',
      df self = Some d
      ∧ df (final (exec ext (HandleMissingValues strategy v) self)) = Some d'
      ∧ len d' = len d.
Proof.
  intros Hs Hret.
  pose proof (exec_transformation ext (HandleMissingValues strategy v) self
                eq_refl) as H.
  destruct (df self) as [d|]; [|destruct H; congruence].
  cbn [transformer_call counter_update] in H.
  destruct (returned (DataTransformer.handle_missing_values strategy v d))
    as [d'|e] eqn:Hm; destruct H as [Hfinal Hr]; [|congruence].
  assert (len d' = len d) as Hlen.
  { eapply (filling_keeps_rows strategy v d d'); [done|]. by split. }
  rewrite Hfinal. cbn. split; [lia|]. by exists d, d'.
Qed.

Lemma filling_records_zero_witness :
  missing_values_handled
    (stats (final (exec sample_externals (HandleMissingValues "forward_fill" VNull)
                     (holding dataframe_with_missing)))) = 0%Z
  ∧ ∃ d d',
      df (holding dataframe_with_missing) = Some d
      ∧ df (final (exec sample_externals (HandleMissingValues "forward_fill" VNull)
                     (holding dataframe_with_missing))) = Some d'
      ∧ len d' = len d.
Proof.
  apply (filling_records_zero sample_externals (holding dataframe_with_missing)
           "forward_fill" VNull); [discriminate|vm_compute; reflexivity].
Defined.

(** ** Selecting columns and filtering rows *)

Lemma select_columns_runs (cs : list string) (d : DataFrame) :
  runs (DataTransformer.select_columns cs) d
    (Ok (pd.getitem_list d (filter (λ col, col ∈ columns d) cs))) d.
Proof.
  unfold DataTransformer.select_columns. apply runs_logged_reraise.
  eapply runs_bind_ok; [apply runs_get|]. cbv beta zeta.
  eapply runs_bind_ok.
  { destruct (decide (filter (λ c, c ∉ columns d) cs = []));
      [apply (runs_ret tt)|apply runs_log]. }
  cbv beta. eapply runs_bind_ok; [apply runs_log|]. apply runs_ret.
Qed.

Lemma filter_label_once (cols : list string) (name : string) :
  NoDup cols → name ∈ cols → filter (λ c, c = name) cols = [name].
Proof.
  induction 1 as [|c cols Hc _ IH]; [by intros ?%elem_of_nil|].
  rewrite filter_cons. intros [->|Hin]%elem_of_cons.
  - rewrite decide_True by done. f_equal. apply filter_none, Forall_forall.
    by intros c' Hin' ->.
  - rewrite decide_False by (by intros ->). by apply IH.
Qed.

Lemma labels_of_selection (cols names : list string) :
  NoDup cols → Forall (λ n, n ∈ cols) names →
  names ≫= (λ name, filter (λ c, c = name) cols) = names.
Proof.
  intros Hnd. induction 1 as [|n names Hn _ IH]; [done|].
  rewrite bind_cons, IH, filter_label_once by done. done.
Qed.

(** X11: [select_columns] never raises: it keeps every row, and of the
    labels asked for it keeps those the frame has, in the order asked,
    leaving out the others without an error. *)
Theorem select_columns_skips_absent (cs : list string) (d : DataFrame) :
  NoDup (columns d) →
  ∃ d',
    runs (DataTransformer.select_columns cs) d (Ok d') d
    ∧ columns d' = filter (λ c, c ∈ columns d) cs
    ∧ (data d').*1 = (data d).*1.
Proof.
  intros Hnd. eexists. split; [apply select_columns_runs|]. cbn. split.
  - apply labels_of_selection; [done|]. apply Forall_forall.
    by intros c [? _]%list_elem_of_filter.
  - rewrite <-list_fmap_compose. done.
Qed.

Lemma select_columns_skips_absent_witness :
  ∃ d',
    runs (DataTransformer.select_columns ["email"; "name"; "id"]) scenario_A (Ok d')
      scenario_A
    ∧ columns d' = filter (λ c, c ∈ columns scenario_A) ["email"; "name"; "id"]
    ∧ (data d').*1 = (data scenario_A).*1.
Proof.
  apply (select_columns_skips_absent ["email"; "name"; "id"] scenario_A).
  cbn. apply NoDup_cons. split; [|apply NoDup_singleton].
  intros [=]%list_elem_of_singleton.
Defined.

(** The cells under the labels of the frame itself are the row. *)
Lemma project_own_labels (pre suf : list string) (cpre csuf : list value) :
  NoDup (pre ++ suf) → length pre = length cpre → length suf = length csuf →
  suf ≫= (λ name, pd.cells_of (pre ++ suf) name (cpre ++ csuf)) = csuf.
Proof.
  revert pre cpre csuf. induction suf as [|n suf IH]; intros pre cpre csuf Hnd Hpre Hsuf.
  - by destruct csuf.
  - destruct csuf as [|c csuf]; [done|]. injection Hsuf as Hsuf.
    rewrite bind_cons.
    assert (pd.cells_of (pre ++ n :: suf) n (cpre ++ c :: csuf) = [c]) as ->.
    { unfold pd.cells_of. rewrite zip_with_app by done. cbn [zip_with].
      rewrite filter_app, filter_cons. cbn. rewrite decide_True by done.
      apply NoDup_app in Hnd as (_ & Hdisj & [Hn _]%NoDup_cons).
      rewrite (filter_none _ (zip pre cpre)), (filter_none _ (zip suf csuf)); [done|..].
      - apply Forall_forall. intros [x y] Hin%elem_of_zip_l. cbn. by intros ->.
      - apply Forall_forall. intros [x y] Hin%elem_of_zip_l. cbn. intros ->.
        apply (Hdisj n); [done|by left]. }
    cbn. f_equal.
    specialize (IH (pre ++ [n])%list (cpre ++ [c])%list csuf).
    rewrite <-!(assoc_L (++)) in IH. cbn in IH. apply IH; [done| |done].
    rewrite !length_app. cbn. lia.
Qed.

Lemma cells_of_once (cols : list string) (name : string) (cells : list value) :
  NoDup cols → length cells = length cols → name ∈ cols →
  ∃ v, pd.cells_of cols name cells = [v].
Proof.
  intros Hnd. revert cells.
  induction Hnd as [|c cols Hc _ IH]; intros cells Hlen Hin;
    [by apply elem_of_nil in Hin|].
  destruct cells as [|x cells]; [done|]. injection Hlen as Hlen.
  unfold pd.cells_of. cbn [zip_with]. rewrite filter_cons. cbn [fst].
  destruct (decide (c = name)) as [->|Hne].
  - exists x. rewrite filter_none; [done|]. apply Forall_forall.
    intros [y z] Hy%elem_of_zip_l. cbn. by intros ->.
  - apply elem_of_cons in Hin as [->|Hin]; [done|]. by apply IH.
Qed.

Lemma cells_of_projection (cols names : list string) (cells : list value)
    (c : string) :
  NoDup cols → length cells = length cols → Forall (λ n, n ∈ cols) names →
  c ∈ names →
  head (pd.cells_of names c (pd.project cols names cells))
  = head (pd.cells_of cols c cells).
Proof.
  intros Hnd Hlen. induction 1 as [|n names Hn _ IH]; intros Hin;
    [by apply elem_of_nil in Hin|].
  unfold pd.project. rewrite bind_cons.
  destruct (cells_of_once cols n cells Hnd Hlen Hn) as [v Hv]. rewrite Hv.
  unfold pd.cells_of at 1. cbn [app zip_with]. rewrite filter_cons. cbn [fst].
  destruct (decide (n = c)) as [->|Hne]; [by rewrite Hv|].
  apply elem_of_cons in Hin as [->|Hin]; [done|]. by apply IH.
Qed.

(** X12: a column that [select_columns] keeps has the cells it had, row
    by row. *)
Theorem select_columns_keeps_cells (cs : list string) (d : DataFrame)
    (c : string) :
  NoDup (columns d) → well_formed d → c ∈ cs → c ∈ columns d →
  ∃ d',
    runs (DataTransformer.select_columns cs) d (Ok d') d
    ∧ pd.getitem d' c = pd.getitem d c.
Proof.
  intros Hnd Hwf Hcs Hc. eexists. split; [apply select_columns_runs|].
  assert (Forall (λ n, n ∈ columns d) (filter (λ col, col ∈ columns d) cs))
    as Hall.
  { apply Forall_forall. by intros n [? _]%list_elem_of_filter. }
  unfold pd.getitem, pd.getitem_list. cbn [columns data].
  rewrite labels_of_selection by done.
  rewrite <-list_fmap_compose. apply Forall_fmap_ext.
  eapply Forall_impl; [exact Hwf|]. intros r Hr. cbn.
  rewrite cells_of_projection; [done..|]. by apply list_elem_of_filter.
Qed.

Lemma select_columns_keeps_cells_witness :
  ∃ d',
    runs (DataTransformer.select_columns ["email"; "name"]) scenario_A (Ok d')
      scenario_A
    ∧ pd.getitem d' "email" = pd.getitem scenario_A "email".
Proof.
  apply (select_columns_keeps_cells ["email"; "name"] scenario_A "email").
  - cbn. apply NoDup_cons. split; [|apply NoDup_singleton].
    intros [=]%list_elem_of_singleton.
  - repeat constructor.
  - by left.
  - by right; left.
Defined.

(** X13: selecting the labels of the frame itself, in its own order,
    returns the frame. *)
Theorem select_own_columns (d : DataFrame) :
  NoDup (columns d) → well_formed d →
  runs (DataTransformer.select_columns (columns d)) d (Ok d) d.
Proof.
  intros Hnd Hwf.
  assert (pd.getitem_list d (filter (λ col, col ∈ columns d) (columns d)) = d)
    as Hid.
  2: { pose proof (select_columns_runs (columns d) d) as Hrun.
       by rewrite Hid in Hrun. }
  rewrite filter_all by done.
  destruct d as [cols rows]. unfold pd.getitem_list. cbn [columns data] in *.
  f_equal.
  - apply labels_of_selection; [done|]. by apply Forall_forall.
  - trans (id <$> rows); [|apply list_fmap_id].
    apply Forall_fmap_ext. eapply Forall_impl; [exact Hwf|].
    intros [i cells] Hlen. cbn in *. f_equal.
    apply (project_own_labels [] cols [] cells); done.
Qed.

Lemma select_own_columns_witness :
  runs (DataTransformer.select_columns (columns scenario_A)) scenario_A
    (Ok scenario_A) scenario_A.
Proof.
  apply (select_own_columns scenario_A).
  - cbn. apply NoDup_cons. split; [|apply NoDup_singleton].
    intros [=]%list_elem_of_singleton.
  - repeat constructor.
Defined.

Lemma filter_rows_runs (condition : DataFrame → result (list bool))
    (d : DataFrame) (mask : list bool) :
  condition d = Ok mask →
  runs (DataTransformer.filter_rows condition) d (pd.getitem_mask d mask) d.
Proof.
  intros Hc. unfold DataTransformer.filter_rows. apply runs_logged_reraise.
  eapply runs_bind_ok; [apply runs_get|]. cbv beta zeta.
  eapply runs_bind_ok; [rewrite Hc; apply runs_lift_result|]. cbv beta.
  destruct (pd.getitem_mask d mask) as [d'|e].
  - eapply runs_bind_ok; [apply runs_lift_result|].
    eapply runs_bind_ok; [apply runs_log|]. apply runs_ret.
  - eapply runs_bind_raise. apply runs_lift_result.
Qed.

(** The rows a mask keeps. *)
Lemma masked_rows {A} (rows : list A) (mask : list bool) :
  length mask = length rows →
  (filter (λ p : A * bool, p.2 = true) (zip rows mask)).*1 `sublist_of` rows
  ∧ length (filter (λ p : A * bool, p.2 = true) (zip rows mask))
    = length (filter (λ b, b = true) mask)
  ∧ ∀ r, r ∈ (filter (λ p : A * bool, p.2 = true) (zip rows mask)).*1
         ↔ ∃ i, rows !! i = Some r ∧ mask !! i = Some true.
Proof.
  revert mask. induction rows as [|x rows IH]; intros [|b mask] Hlen; try done.
  - split; [done|]. split; [done|]. intros r. split.
    + by intros ?%elem_of_nil.
    + by intros (i & ? & _).
  - injection Hlen as Hlen. destruct (IH mask Hlen) as (Hsub & Hcount & Hmem).
    cbn [zip_with]. rewrite !filter_cons. cbn [snd].
    destruct (decide (b = true)) as [->|Hb].
    + split; [by apply sublist_skip|]. split; [cbn; by rewrite Hcount|].
      intros r. rewrite fmap_cons, elem_of_cons, Hmem. cbn. split.
      * intros [->|(i & ? & ?)]; [by exists 0%nat|by exists (S i)].
      * intros ([|i] & Hr & Hm); [left; by injection Hr|right; by exists i].
    + split; [by apply sublist_cons|]. split; [done|].
      intros r. rewrite Hmem. split.
      * intros (i & ? & ?). by exists (S i).
      * intros ([|i] & Hr & Hm); [|by exists i].
        injection Hm as ->. done.
Qed.

(** X14: given a mask with one entry for each row, [filter_rows] returns
    the rows the mask marks, in their order and under the same labels:
    as many rows as the mask has true entries. *)
Theorem filter_rows_keeps_marked (condition : DataFrame → result (list bool))
    (d : DataFrame) (mask : list bool) :
  condition d = Ok mask → length mask = length (data d) →
  ∃ d',
    runs (DataTransformer.filter_rows condition) d (Ok d') d
    ∧ columns d' = columns d
    ∧ data d' `sublist_of` data d
    ∧ length (data d') = length (filter (λ b, b = true) mask)
    ∧ ∀ r, r ∈ data d' ↔ ∃ i, data d !! i = Some r ∧ mask !! i = Some true.
Proof.
  intros Hc Hlen. pose proof (filter_rows_runs condition d mask Hc) as Hrun.
  unfold pd.getitem_mask in Hrun. rewrite decide_True in Hrun by done.
  eexists. split; [exact Hrun|]. cbn [columns data]. split; [done|].
  destruct (masked_rows (data d) mask Hlen) as (Hsub & Hcount & Hmem).
  split; [done|]. split; [|done]. by rewrite length_fmap.
Qed.

Lemma filter_rows_keeps_marked_witness :
  ∃ d',
    runs (DataTransformer.filter_rows (λ _, Ok [true; false; true])) scenario_A
      (Ok d') scenario_A
    ∧ columns d' = columns scenario_A
    ∧ data d' `sublist_of` data scenario_A
    ∧ length (data d') = length (filter (λ b, b = true) [true; false; true])
    ∧ ∀ r, r ∈ data d'
           ↔ ∃ i, data scenario_A !! i = Some r
                  ∧ [true; false; true] !! i = Some true.
Proof.
  apply (filter_rows_keeps_marked (λ _, Ok [true; false; true]) scenario_A
           [true; false; true]); reflexivity.
Defined.

(** ** Converting types and adding a column *)

Lemma runs_put {S} (s s' : S) : runs (put s') s (Ok tt) s'.
Proof. done. Qed.

Lemma runs_logged_swallow {S} msg (m : M S unit) (s : S) r s1 :
  runs m s r s1 → runs (logged_swallow msg m) s (Ok tt) s1.
Proof.
  unfold runs, logged_swallow. intros [<- <-].
  by destruct (m s) as [s1 l1 [[]|e]].
Qed.

(** What [df[name] = cells] leaves alone when the label is there. *)
Lemma cells_of_other (cols : list string) (name c : string) v
    (cells : list value) :
  c ≠ name →
  pd.cells_of cols c
    (zip_with (λ col old, if decide (col = name) then v else old) cols cells)
  = pd.cells_of cols c cells.
Proof.
  intros Hne. unfold pd.cells_of. revert cells.
  induction cols as [|col cols IH]; intros [|x cells]; try done.
  cbn [zip_with]. rewrite !filter_cons. cbn [fst].
  destruct (decide (col = c)) as [->|Hcol].
  - rewrite decide_False by done. cbn. f_equal. apply IH.
  - apply IH.
Qed.

Lemma setitem_present (d : DataFrame) (name : string) (cells : list value) :
  name ∈ columns d → length cells = length (data d) →
  columns (pd.setitem d name cells) = columns d
  ∧ length (data (pd.setitem d name cells)) = length (data d)
  ∧ ∀ c, c ≠ name → pd.getitem (pd.setitem d name cells) c = pd.getitem d c.
Proof.
  intros Hin Hlen. unfold pd.setitem. rewrite decide_True by done.
  cbn [columns data]. split; [done|]. split.
  { rewrite length_zip_with. lia. }
  intros c Hc. unfold pd.getitem. cbn [columns data].
  revert cells Hlen. induction (data d) as [|r rows IH]; intros [|v cells] Hlen;
    try done.
  injection Hlen as Hlen. cbn [zip_with fmap list_fmap]. cbn [snd].
  rewrite cells_of_other by done. f_equal. by apply IH.
Qed.

Section convert.
Context (ext : Externals).
Hypothesis astype_length : ∀ cells dtype cells',
  astype ext cells dtype = Ok cells' → length cells' = length cells.

(** One turn of the loop over [dtype_mapping.items()]. *)
Lemma convert_item (item : string * string) (d : DataFrame) :
  ∃ d',
    runs
      (df <- get;;
       if decide (item.1 ∈ columns df) then
         logged_swallow "Erro ao converter {column} para {dtype}: {str(e)}"
           (cells <- lift_result (astype ext (pd.getitem df item.1) item.2);;
            put (pd.setitem df item.1 cells);;;
            log INFO "✓ Coluna {column} convertida para {dtype}")
       else ret tt) d (Ok tt) d'
    ∧ columns d' = columns d
    ∧ length (data d') = length (data d)
    ∧ ∀ c, c ≠ item.1 → pd.getitem d' c = pd.getitem d c.
Proof.
  destruct (decide (item.1 ∈ columns d)) as [Hin|Hout].
  - destruct (astype ext (pd.getitem d item.1) item.2) as [cells|e] eqn:Has.
    + exists (pd.setitem d item.1 cells). split.
      * eapply runs_bind_ok; [apply runs_get|]. cbv beta.
        rewrite decide_True by done. eapply runs_logged_swallow.
        eapply runs_bind_ok; [rewrite Has; apply runs_lift_result|]. cbv beta.
        eapply runs_bind_ok; [apply runs_put|]. apply runs_log.
      * apply setitem_present; [done|].
        rewrite (astype_length _ _ _ Has). unfold pd.getitem.
        by rewrite length_fmap.
    + exists d. split; [|done].
      eapply runs_bind_ok; [apply runs_get|]. cbv beta.
      rewrite decide_True by done. eapply runs_logged_swallow.
      eapply runs_bind_raise. rewrite Has. apply runs_lift_result.
  - exists d. split; [|done].
    eapply runs_bind_ok; [apply runs_get|]. cbv beta.
    rewrite decide_False by done. apply runs_ret.
Qed.

Lemma convert_loop (mapping : list (string * string)) (d : DataFrame) :
  ∃ d',
    runs
      (for_each mapping (λ item,
         let column := item.1 in
         let dtype := item.2 in
         df <- get;;
         if decide (column ∈ columns df) then
           logged_swallow "Erro ao converter {column} para {dtype}: {str(e)}"
             (cells <- lift_result (astype ext (pd.getitem df column) dtype);;
              put (pd.setitem df column cells);;;
              log INFO "✓ Coluna {column} convertida para {dtype}")
         else ret tt)) d (Ok tt) d'
    ∧ columns d' = columns d
    ∧ length (data d') = length (data d)
    ∧ ∀ c, c ∉ mapping.*1 → pd.getitem d' c = pd.getitem d c.
Proof.
  revert d. induction mapping as [|item mapping IH]; intros d.
  - exists d. split; [apply runs_ret|done].
  - destruct (convert_item item d) as (d1 & Hrun1 & Hcols1 & Hlen1 & Hget1).
    destruct (IH d1) as (d2 & Hrun2 & Hcols2 & Hlen2 & Hget2).
    exists d2. split; [|split; [congruence|split; [congruence|]]].
    + cbn [for_each]. eapply runs_bind_ok; [exact Hrun1|exact Hrun2].
    + intros c Hc. rewrite fmap_cons in Hc.
      apply not_elem_of_cons in Hc as [Hne Hc].
      rewrite Hget2, Hget1 by done. done.
Qed.

(** X15: [convert_data_types] never raises, whatever a conversion does:
    it returns the frame it was given, converted in place, with the
    labels and the number of rows it had, and with the cells it had in
    every column the mapping does not name. *)
Theorem convert_data_types_only_named (mapping : list (string * string))
    (d : DataFrame) :
  ∃ d',
    runs (DataTransformer.convert_data_types ext mapping) d (Ok d') d'
    ∧ columns d' = columns d
    ∧ length (data d') = length (data d)
    ∧ ∀ c, c ∉ mapping.*1 → pd.getitem d' c = pd.getitem d c.
Proof.
  destruct (convert_loop mapping d) as (d' & Hrun & Hrest).
  exists d'. split; [|exact Hrest].
  unfold DataTransformer.convert_data_types. apply runs_logged_reraise.
  eapply runs_bind_ok; [exact Hrun|]. cbv beta.
  eapply runs_bind_ok; [apply runs_get|]. apply runs_ret.
Qed.

End convert.

Lemma convert_data_types_only_named_witness :
  ∃ d',
    runs (DataTransformer.convert_data_types sample_externals [("id", "float")])
      scenario_A (Ok d') d'
    ∧ columns d' = columns scenario_A
    ∧ length (data d') = length (data scenario_A)
    ∧ ∀ c, c ∉ [("id", "float")].*1 → pd.getitem d' c = pd.getitem scenario_A c.
Proof.
  apply (convert_data_types_only_named sample_externals).
  intros cells dtype cells' [= ->]. reflexivity.
Defined.


Lemma map_result_raise {A B} (f : A → result B) (before after_ : list A)
    (bs : list B) (a : A) e :
  Forall2 (λ a b, f a = Ok b) before bs → f a = Raise e →
  pd.map_result f (before ++ a :: after_) = Raise e.
Proof.
  intros Hok Ha. induction Hok as [|a' b l bs' Ha' _ IH]; cbn.
  - by rewrite Ha.
  - by rewrite Ha', IH.
Qed.





Lemma add_calculated_column_runs (name : string)
    (func : labelled_row → result value) (d : DataFrame) :
  runs (DataTransformer.add_calculated_column name func) d
    (match pd.map_result (λ r : row, func (zip (columns d) r.2)) (data d) with
     | Ok cells => Ok (pd.setitem d name cells)
     | Raise e => Raise e
     end)
    (match pd.map_result (λ r : row, func (zip (columns d) r.2)) (data d) with
     | Ok cells => pd.setitem d name cells
     | Raise e => d
     end).
Proof.
  unfold DataTransformer.add_calculated_column. apply runs_logged_reraise.
  eapply runs_bind_ok; [apply runs_get|]. cbv beta.
  destruct (pd.map_result (λ r : row, func (zip (columns d) r.2)) (data d))
    as [cells|e].
  - eapply runs_bind_ok; [apply runs_lift_result|]. cbv beta.
    eapply runs_bind_ok; [apply runs_put|].
    eapply runs_bind_ok; [apply runs_log|].
    eapply runs_bind_ok; [apply runs_get|]. apply runs_ret.
  - eapply runs_bind_raise. apply runs_lift_result.
Qed.



(** X17: when [func] raises on a row and has returned on the rows
    before it, [add_calculated_column] raises that exception and the
    frame is as it was: no column is added. *)
Theorem add_calculated_column_first_error (name : string)
    (func : labelled_row → result value) (d : DataFrame)
    (before after_ : list row) (r : row) (cells : list value) (e : exn) :
  data d = (before ++ r :: after_)%list →
  Forall2 (λ (r : row) v, func (zip (columns d) r.2) = Ok v) before cells →
  func (zip (columns d) r.2) = Raise e →
  runs (DataTransformer.add_calculated_column name func) d (Raise e) d.
Proof.
  intros Hdata Hbefore Hr.
  pose proof (add_calculated_column_runs name func d) as Hrun.
  rewrite Hdata in Hrun at 1 2.
  by rewrite (map_result_raise _ _ _ _ _ _ Hbefore Hr) in Hrun.
Qed.

Lemma add_calculated_column_first_error_witness :
  runs (DataTransformer.add_calculated_column "ratio"
          (λ r, match pd.lookup_str "age" r with
                | Some (VInt 20) => Raise (OtherError "division by zero")
                | _ => Ok (VInt 1)
                end)) scenario_B (Raise (OtherError "division by zero")) scenario_B.
Proof.
  apply (add_calculated_column_first_error "ratio" _ scenario_B
           [(0%nat, [VInt 10])] [(2%nat, [VInt 30])] (1%nat, [VInt 20]) [VInt 1]).
  - reflexivity.
  - repeat constructor.
  - reflexivity.
Defined.

(** ** Which of the duplicated rows is kept *)

Section keep_first_rows.
Context {A K : Type} `{EqDecision K} (key : A → K).



End keep_first_rows.




(** ** Forward and backward fill, column by column *)

Lemma fill_from_same_length (prev cur : list value) :
  length prev = length cur →
  pd.fill_from prev cur = zip_with (λ p c, if isnull c then p else c) prev cur.
Proof.
  unfold pd.fill_from. generalize (replicate (length cur) VNull).
  revert cur. induction prev as [|p prev IH]; intros [|c cur] pad Hlen;
    try done; [by destruct pad|].
  injection Hlen as Hlen. cbn. f_equal. by apply IH.
Qed.

Lemma fill_from_start (cur : list value) :
  pd.fill_from [] cur = pd.fill_from (replicate (length cur) VNull) cur.
Proof.
  rewrite (fill_from_same_length (replicate _ _)) by (by rewrite length_replicate).
  done.
Qed.

Lemma ffill_rows_start (n : nat) (rows : list row) :
  Forall (λ r : row, length r.2 = n) rows →
  pd.ffill_rows [] rows = pd.ffill_rows (replicate n VNull) rows.
Proof.
  destruct 1 as [|r rows Hr _]; [done|]. cbn [pd.ffill_rows].
  by rewrite fill_from_start, Hr.
Qed.

Lemma cell_filled (cols : list string) (c : string) (prev cur : list value) :
  c ∈ cols → length prev = length cols → length cur = length cols →
  cell cols c (zip_with (λ p x, if isnull x then p else x) prev cur)
  = if isnull (cell cols c cur) then cell cols c prev else cell cols c cur.
Proof.
  unfold cell, pd.cells_of. revert prev cur.
  induction cols as [|col cols IH]; intros prev cur Hin Hprev Hcur;
    [by apply elem_of_nil in Hin|].
  destruct prev as [|p prev]; [done|]. destruct cur as [|x cur]; [done|].
  injection Hprev as Hprev. injection Hcur as Hcur.
  cbn [zip_with]. rewrite !filter_cons. cbn [fst].
  destruct (decide (col = c)) as [->|Hne]; [done|].
  apply elem_of_cons in Hin as [->|Hin]; [done|]. by apply IH.
Qed.

Lemma cell_of_padding (cols : list string) (c : string) (n : nat) :
  cell cols c (replicate n VNull) = VNull.
Proof.
  unfold cell.
  destruct (head (pd.cells_of cols c (replicate n VNull))) as [v|] eqn:Hhead;
    [|done].
  apply head_Some in Hhead as [l Hl].
  assert (v ∈ pd.cells_of cols c (replicate n VNull)) as Hv by (rewrite Hl; left).
  unfold pd.cells_of in Hv.
  apply list_elem_of_fmap in Hv as ([x y] & -> & [_ Hin]%list_elem_of_filter).
  apply elem_of_zip_r in Hin. by apply elem_of_replicate in Hin as [-> _].
Qed.

Lemma ffill_rows_column (cols : list string) (c : string) (prev : list value)
    (rows : list row) :
  c ∈ cols → length prev = length cols →
  Forall (λ r : row, length r.2 = length cols) rows →
  (λ r : row, cell cols c r.2) <$> pd.ffill_rows prev rows
  = propagate (cell cols c prev) ((λ r : row, cell cols c r.2) <$> rows).
Proof.
  intros Hin Hprev Hrows. revert prev Hprev.
  induction Hrows as [|r rows Hr _ IH]; intros prev Hprev; [done|].
  cbn [pd.ffill_rows fmap list_fmap propagate]. cbn [snd].
  rewrite fill_from_same_length by congruence.
  rewrite IH by (rewrite length_zip_with; lia).
  by rewrite cell_filled.
Qed.

Lemma ffill_column (d : DataFrame) (c : string) :
  well_formed d → c ∈ columns d →
  pd.getitem (pd.ffill d) c = propagate VNull (pd.getitem d c).
Proof.
  intros Hwf Hin. unfold pd.getitem, pd.ffill. cbn [columns data].
  rewrite (ffill_rows_start (length (columns d))) by done.
  pose proof (ffill_rows_column (columns d) c
                (replicate (length (columns d)) VNull) (data d) Hin) as Hcol.
  rewrite cell_of_padding in Hcol. apply Hcol; [|done].
  by rewrite length_replicate.
Qed.

Lemma bfill_column (d : DataFrame) (c : string) :
  well_formed d → c ∈ columns d →
  pd.getitem (pd.bfill d) c
  = reverse (propagate VNull (reverse (pd.getitem d c))).
Proof.
  intros Hwf Hin. unfold pd.getitem, pd.bfill. cbn [columns data].
  rewrite fmap_reverse. f_equal. rewrite <-fmap_reverse.
  apply (ffill_column (mkDataFrame (columns d) (reverse (data d))) c);
    [|done].
  unfold well_formed. cbn [columns data]. by apply Forall_reverse.
Qed.

Lemma last_present_step (p x : value) (l : list value) :
  last_present (p :: x :: l) = last_present ((if isnull x then p else x) :: l).
Proof.
  unfold last_present, pd.notna. rewrite !filter_cons.
  destruct (decide (x ≠ VNull)) as [Hx|Hx].
  - replace (isnull x) with false by (by destruct x).
    rewrite (decide_True (P:=x ≠ VNull)) by done.
    destruct (decide (p ≠ VNull)); [by rewrite last_cons_cons|done].
  - apply dec_stable in Hx as ->. done.
Qed.

Lemma length_propagate (p : value) (l : list value) :
  length (propagate p l) = length l.
Proof. revert p. induction l as [|x l IH]; intros p; [done|]. cbn. by rewrite IH. Qed.

Lemma propagate_lookup (p : value) (l : list value) (i : nat) :
  propagate p l !! i
  = (λ _, last_present (p :: take (S i) l)) <$> (l !! i).
Proof.
  revert p i. induction l as [|x l IH]; intros p i; [done|].
  destruct i as [|i]; cbn [propagate lookup list_lookup fmap option_fmap option_map].
  - f_equal. change (take 1 (x :: l)) with [x].
    unfold last_present, pd.notna. rewrite !filter_cons, filter_nil.
    destruct (decide (x ≠ VNull)) as [Hx|Hx].
    + replace (isnull x) with false by (by destruct x).
      by destruct (decide (p ≠ VNull)).
    + apply dec_stable in Hx as ->. cbn [isnull].
      destruct (decide (p ≠ VNull)) as [|Hp]; [done|].
      cbn. by apply dec_stable in Hp.
  - rewrite IH. change (take (S (S i)) (x :: l)) with (x :: take (S i) l).
    by rewrite last_present_step.
Qed.

Lemma last_present_padded (l : list value) :
  last_present (VNull :: l) = last_present l.
Proof.
  unfold last_present, pd.notna. rewrite filter_cons.
  by rewrite (decide_False (P:=VNull ≠ VNull)) by (by intros ?).
Qed.

Lemma last_present_reverse (l : list value) :
  last_present (reverse l) = first_present l.
Proof.
  unfold last_present, first_present, pd.notna.
  by rewrite filter_reverse, last_reverse.
Qed.

Lemma fill_from_present (prev cur : list value) :
  Forall (λ c, c ≠ VNull) cur → pd.fill_from prev cur = cur.
Proof.
  unfold pd.fill_from. intros Hcur.
  assert (length cur ≤ length (prev ++ replicate (length cur) VNull))%nat as Hlen.
  { rewrite length_app, length_replicate. lia. }
  revert Hlen. generalize (prev ++ replicate (length cur) VNull)%list.
  induction Hcur as [|c cur Hc _ IH]; intros [|p pad] Hlen; try done.
  - cbn in Hlen. lia.
  - cbn. rewrite IH by (cbn in Hlen; lia). by destruct c.
Qed.

Lemma ffill_rows_present (prev : list value) (rows : list row) :
  Forall (λ r : row, pd.count_nulls r.2 = 0%nat) rows →
  pd.ffill_rows prev rows = rows.
Proof.
  intros Hrows. revert prev.
  induction Hrows as [|[i cells] rows Hr _ IH]; intros prev; [done|].
  cbn [pd.ffill_rows]. cbn [fst snd] in *.
  rewrite fill_from_present by (by apply count_nulls_zero). by rewrite IH.
Qed.

Lemma ffill_nothing (d : DataFrame) :
  pd.isnull_sum_sum d = 0%Z → pd.ffill d = d ∧ pd.bfill d = d.
Proof.
  intros Hz%isnull_sum_sum_zero. destruct d as [cols rows].
  unfold pd.ffill, pd.bfill. cbn [columns data] in *. split; f_equal.
  - by apply ffill_rows_present.
  - rewrite ffill_rows_present by (by apply Forall_reverse).
    apply reverse_involutive.
Qed.

Lemma ffill_labels (prev : list value) (rows : list row) :
  (pd.ffill_rows prev rows).*1 = rows.*1.
Proof.
  revert prev. induction rows as [|r rows IH]; intros prev; [done|].
  cbn. by rewrite IH.
Qed.

(** X19: the strategy forward_fill returns the frame with its rows and
    labels, in which every cell holds the last present cell of its
    column from the top down to its own row; the cell stays missing
    when there is none, as in the first row. *)
Theorem forward_fill_propagates (v : value) (d : DataFrame) (c : string) :
  well_formed d → c ∈ columns d →
  ∃ d',
    runs (DataTransformer.handle_missing_values "forward_fill" v) d (Ok d') d
    ∧ columns d' = columns d
    ∧ (data d').*1 = (data d).*1
    ∧ ∀ i, pd.getitem d' c !! i
           = (λ _, last_present (take (S i) (pd.getitem d c)))
               <$> (pd.getitem d c !! i).
Proof.
  intros Hwf Hin. exists (pd.ffill d). split.
  { destruct (decide (pd.isnull_sum_sum d = 0%Z)) as [Hz|Hz].
    - destruct (ffill_nothing d Hz) as [-> _].
      by apply handle_missing_values_nothing.
    - by apply handle_missing_values_forward. }
  split; [done|]. split; [apply ffill_labels|]. intros i.
  rewrite ffill_column, propagate_lookup by done.
  by rewrite last_present_padded.
Qed.

Lemma forward_fill_propagates_witness :
  ∃ d',
    runs (DataTransformer.handle_missing_values "forward_fill" VNull)
      dataframe_with_missing (Ok d') dataframe_with_missing
    ∧ columns d' = columns dataframe_with_missing
    ∧ (data d').*1 = (data dataframe_with_missing).*1
    ∧ ∀ i, pd.getitem d' "age" !! i
           = (λ _, last_present (take (S i) (pd.getitem dataframe_with_missing "age")))
               <$> (pd.getitem dataframe_with_missing "age" !! i).
Proof.
  apply (forward_fill_propagates VNull dataframe_with_missing "age").
  - repeat constructor.
  - cbn. do 2 right. by left.
Defined.

(** X20: the strategy backward_fill returns the frame with its rows and
    labels, in which every cell holds the first present cell of its
    column from its own row down to the bottom; the cell stays missing
    when there is none, as in the last row. *)
Theorem backward_fill_propagates (v : value) (d : DataFrame) (c : string) :
  well_formed d → c ∈ columns d →
  ∃ d',
    runs (DataTransformer.handle_missing_values "backward_fill" v) d (Ok d') d
    ∧ columns d' = columns d
    ∧ (data d').*1 = (data d).*1
    ∧ ∀ i, pd.getitem d' c !! i
           = (λ _, first_present (drop i (pd.getitem d c)))
               <$> (pd.getitem d c !! i).
Proof.
  intros Hwf Hin. exists (pd.bfill d). split.
  { destruct (decide (pd.isnull_sum_sum d = 0%Z)) as [Hz|Hz].
    - destruct (ffill_nothing d Hz) as [_ ->].
      by apply handle_missing_values_nothing.
    - by apply handle_missing_values_backward. }
  split; [done|]. split.
  { unfold pd.bfill. cbn [data].
    by rewrite fmap_reverse, ffill_labels, fmap_reverse, reverse_involutive. }
  intros i. rewrite bfill_column by done.
  set (col := pd.getitem d c).
  destruct (decide (i < length col)%nat) as [Hi|Hi].
  - rewrite reverse_lookup by (rewrite length_propagate, length_reverse; lia).
    rewrite length_propagate, length_reverse, propagate_lookup.
    rewrite last_present_padded, take_reverse, last_present_reverse.
    rewrite reverse_lookup by lia.
    replace (length col - S (length col - S i))%nat with i by lia.
    done.
  - rewrite !lookup_ge_None_2; [done|lia|].
    rewrite length_reverse, length_propagate, length_reverse. lia.
Qed.

Lemma backward_fill_propagates_witness :
  ∃ d',
    runs (DataTransformer.handle_missing_values "backward_fill" VNull)
      dataframe_with_missing (Ok d') dataframe_with_missing
    ∧ columns d' = columns dataframe_with_missing
    ∧ (data d').*1 = (data dataframe_with_missing).*1
    ∧ ∀ i, pd.getitem d' "salary" !! i
           = (λ _, first_present (drop i (pd.getitem dataframe_with_missing "salary")))
               <$> (pd.getitem dataframe_with_missing "salary" !! i).
Proof.
  apply (backward_fill_propagates VNull dataframe_with_missing "salary").
  - repeat constructor.
  - cbn. do 3 right. by left.
Defined.

(** ** The validator *)

Lemma foldl_append_bind {A B} (f : A → list B) (l : list A) (acc : list B) :
  foldl (λ acc a, acc ++ f a)%list acc l = (acc ++ (l ≫= f))%list.
Proof.
  revert acc. induction l as [|a l IH]; intros acc; cbn [foldl].
  - symmetry. apply (right_id_L [] (++)).
  - by rewrite IH, bind_cons, (assoc_L (++)).
Qed.

Lemma validate_row_errors (ext : Externals) (row_ : labelled_row)
    (schema : list (string * rules)) :
  errors (DataValidator.validate_row ext row_ schema)
  = schema ≫= (λ item, DataValidator.check_field ext row_ item.1 item.2).
Proof.
  unfold DataValidator.validate_row. cbn [errors].
  by rewrite (foldl_append_bind
                (λ item, DataValidator.check_field ext row_ item.1 item.2)).
Qed.

Lemma validate_row_is_valid (ext : Externals) (row_ : labelled_row)
    (schema : list (string * rules)) :
  is_valid (DataValidator.validate_row ext row_ schema)
  = bool_decide (errors (DataValidator.validate_row ext row_ schema) = []).
Proof.
  unfold DataValidator.validate_row. cbn [is_valid errors].
  apply bool_decide_ext. split; [apply nil_length_inv|by intros ->].
Qed.

(** X21: the errors of a schema are those of its fields in the order of
    the schema: validating against two schemas put one after the other
    gives the errors of the first followed by those of the second, and
    the row is valid when it is valid for both. *)
Theorem validate_row_schema_append (ext : Externals) (row_ : labelled_row)
    (s1 s2 : list (string * rules)) :
  errors (DataValidator.validate_row ext row_ (s1 ++ s2))
  = (errors (DataValidator.validate_row ext row_ s1)
     ++ errors (DataValidator.validate_row ext row_ s2))%list
  ∧ is_valid (DataValidator.validate_row ext row_ (s1 ++ s2))
    = is_valid (DataValidator.validate_row ext row_ s1)
      && is_valid (DataValidator.validate_row ext row_ s2).
Proof.
  rewrite !validate_row_is_valid, !validate_row_errors, bind_app.
  split; [done|].
  destruct (s1 ≫= _) as [|m l1]; [|done]. cbn [app].
  by rewrite (bool_decide_true ([] = [])) by done.
Qed.

Lemma check_field_same (ext : Externals) (row1 row2 : labelled_row)
    (field : string) (r : rules) :
  pd.lookup_str field row1 = pd.lookup_str field row2 →
  DataValidator.check_field ext row1 field r
  = DataValidator.check_field ext row2 field r.
Proof. unfold DataValidator.check_field. by intros ->. Qed.

(** X22: [validate_row] reads no field of the row but those the schema
    names: two rows that agree on them get the same result. *)
Theorem validate_row_reads_schema_fields (ext : Externals)
    (row1 row2 : labelled_row) (schema : list (string * rules)) :
  (∀ field, field ∈ schema.*1 →
            pd.lookup_str field row1 = pd.lookup_str field row2) →
  DataValidator.validate_row ext row1 schema
  = DataValidator.validate_row ext row2 schema.
Proof.
  intros Hagree.
  assert (errors (DataValidator.validate_row ext row1 schema)
          = errors (DataValidator.validate_row ext row2 schema)) as Herr.
  { rewrite !validate_row_errors. clear -Hagree.
    induction schema as [|item schema IH]; [done|].
    rewrite !bind_cons, IH.
    - f_equal. apply check_field_same, Hagree. rewrite fmap_cons. by left.
    - intros field Hfield. apply Hagree. rewrite fmap_cons. by right. }
  pose proof (validate_row_is_valid ext row1 schema) as H1.
  pose proof (validate_row_is_valid ext row2 schema) as H2.
  rewrite Herr in H1. rewrite <-H2 in H1.
  destruct (DataValidator.validate_row ext row1 schema) as [v1 e1 w1] eqn:E1.
  destruct (DataValidator.validate_row ext row2 schema) as [v2 e2 w2] eqn:E2.
  cbn in *. subst.
  assert (w1 = []) as -> by (by injection E1).
  assert (w2 = []) as -> by (by injection E2).
  done.
Qed.

Lemma validate_row_reads_schema_fields_witness :
  DataValidator.validate_row sample_externals
    [("email", VStr "a@x.com"); ("note", VStr "one")]
    [("email", mkRules (Some Tstr) true false None None false None)]
  = DataValidator.validate_row sample_externals
      [("note", VInt 2); ("email", VStr "a@x.com")]
      [("email", mkRules (Some Tstr) true false None None false None)].
Proof.
  apply (validate_row_reads_schema_fields sample_externals).
  intros field [->|[]%elem_of_nil]%elem_of_cons. reflexivity.
Defined.

Lemma mentions_inside (prefix field suffix : string) :
  mentions field (prefix +:+ field +:+ suffix).
Proof. by exists prefix, suffix. Qed.

Lemma check_field_mentions (ext : Externals) (row_ : labelled_row)
    (field : string) (r : rules) (msg : string) :
  msg ∈ DataValidator.check_field ext row_ field r → mentions field msg.
Proof.
  unfold DataValidator.check_field.
  destruct (pd.lookup_str field row_) as [v|].
  - rewrite !elem_of_app. intros [H|[H|[H|H]]].
    + destruct (rule_type r) as [t|]; [|by apply elem_of_nil in H].
      destruct (isinstance v t); [by apply elem_of_nil in H|].
      apply list_elem_of_singleton in H as ->. apply mentions_inside.
    + destruct (rule_email r && _); [|by apply elem_of_nil in H].
      apply list_elem_of_singleton in H as ->. apply mentions_inside.
    + destruct (rule_numeric r && _); [|by apply elem_of_nil in H].
      apply list_elem_of_singleton in H as ->. apply mentions_inside.
    + destruct (rule_date r); [|by apply elem_of_nil in H].
      destruct (DataValidator.validate_date _ _ _); [by apply elem_of_nil in H|].
      apply list_elem_of_singleton in H as ->. apply mentions_inside.
  - intros ->%list_elem_of_singleton.
    exists "Campo obrigatório ausente: ", "". by rewrite append_empty_r.
Qed.

(** X23: every error [validate_row] reports names a field of the
    schema, and a field reports at most four errors: an empty schema
    reports none. *)
Theorem validate_row_errors_name_fields (ext : Externals)
    (row_ : labelled_row) (schema : list (string * rules)) :
  (∀ msg, msg ∈ errors (DataValidator.validate_row ext row_ schema) →
          ∃ field, field ∈ schema.*1 ∧ mentions field msg)
  ∧ (length (errors (DataValidator.validate_row ext row_ schema))
     ≤ 4 * length schema)%nat.
Proof.
  rewrite validate_row_errors. split.
  - intros msg ([field r] & Hmsg & Hitem)%list_elem_of_bind.
    exists field. split; [by apply (list_elem_of_fmap_2 fst) in Hitem|].
    by eapply check_field_mentions.
  - induction schema as [|[field r] schema IH]; [done|].
    rewrite bind_cons, length_app. cbn [length fst snd].
    assert (length (DataValidator.check_field ext row_ field r) ≤ 4)%nat; [|lia].
    unfold DataValidator.check_field.
    destruct (pd.lookup_str field row_) as [v|]; [|cbn; lia].
    rewrite !length_app.
    repeat match goal with
           | |- context [length (if ?b then _ else _)] => destruct b
           | |- context [length (match ?o with Some _ => _ | None => _ end)] =>
               destruct o
           end; cbn; lia.
Qed.

Section numeric.
Local Open Scope Qc_scope.


End numeric.

(** *** The pattern of [validate_email] *)

Section email.
Import DataValidator.

Lemma split_first_Some (sep : ascii) (l a b : list ascii) :
  split_first sep l = Some (a, b) → l = (a ++ sep :: b)%list ∧ sep ∉ a.
Proof.
  revert a. induction l as [|c l IH]; intros a; [done|]. cbn [split_first].
  destruct (decide (c = sep)) as [->|Hne].
  - intros [= <- <-]. split; [done|]. by intros ?%elem_of_nil.
  - destruct (split_first sep l) as [[a' b']|]; [|done]. intros [= <- <-].
    destruct (IH a' eq_refl) as [-> Hout]. split; [done|].
    intros [?|?]%elem_of_cons; [by apply Hne|by apply Hout].
Qed.

Lemma split_first_app (sep : ascii) (a b : list ascii) :
  sep ∉ a → split_first sep (a ++ sep :: b) = Some (a, b).
Proof.
  induction a as [|c a IH]; intros Hout; cbn [app split_first].
  - by rewrite decide_True.
  - apply not_elem_of_cons in Hout as [Hne Hout].
    rewrite decide_False by done. by rewrite IH.
Qed.

Lemma split_last_Some (sep : ascii) (l a b : list ascii) :
  split_last sep l = Some (a, b) → l = (a ++ sep :: b)%list ∧ sep ∉ b.
Proof.
  unfold split_last.
  destruct (split_first sep (reverse l)) as [[x y]|] eqn:Hsplit; [|done].
  intros [= <- <-]. apply split_first_Some in Hsplit as [Hrev Hout]. split.
  - rewrite <-(reverse_involutive l), Hrev.
    by rewrite reverse_app, reverse_cons, <-(assoc_L (++)).
  - by rewrite elem_of_reverse.
Qed.

Lemma split_last_app (sep : ascii) (a b : list ascii) :
  sep ∉ b → split_last sep (a ++ sep :: b) = Some (a, b).
Proof.
  intros Hout. unfold split_last.
  rewrite reverse_app, reverse_cons, <-(assoc_L (++)). cbn [app].
  rewrite split_first_app by (by rewrite elem_of_reverse).
  by rewrite !reverse_involutive.
Qed.

Lemma forallb_Forall {A} (f : A → bool) (l : list A) :
  forallb f l = true ↔ Forall (λ x, f x = true) l.
Proof.
  induction l as [|x l IH]; cbn [forallb]; [by split|].
  rewrite andb_true_iff, Forall_cons, IH. done.
Qed.

Lemma before_final_newline_cases (l : list ascii) :
  before_final_newline l = l
  ∨ l = (before_final_newline l ++ ["010"%char])%list.
Proof.
  unfold before_final_newline. destruct (reverse l) as [|c l'] eqn:Hrev; [by left|].
  destruct (decide (c = "010"%char)) as [->|]; [right|by left].
  by rewrite <-(reverse_involutive l), Hrev, reverse_cons.
Qed.

Lemma before_final_newline_snoc (body : list ascii) :
  before_final_newline (body ++ ["010"%char]) = body.
Proof.
  unfold before_final_newline. rewrite reverse_snoc.
  rewrite decide_True by done. apply reverse_involutive.
Qed.

Lemma before_final_newline_letter (l tld : list ascii) :
  tld ≠ [] → Forall (λ c, is_letter c = true) tld →
  before_final_newline (l ++ tld) = (l ++ tld)%list.
Proof.
  intros Hne Hletters. unfold before_final_newline. rewrite reverse_app.
  destruct (reverse tld) as [|c t] eqn:Hrev.
  { destruct Hne. by rewrite <-(reverse_involutive tld), Hrev. }
  cbn [app]. rewrite decide_False; [done|]. intros ->.
  assert ("010"%char ∈ tld) as Hin.
  { rewrite <-elem_of_reverse, Hrev. by left. }
  by apply (proj1 (Forall_forall _ _) Hletters) in Hin.
Qed.

Lemma match_email_shape (email : string) :
  match_email email = true
  ↔ email_shape (before_final_newline (list_ascii_of_string email)).
Proof.
  unfold match_email.
  set (l := before_final_newline (list_ascii_of_string email)). split.
  - destruct (split_first "@"%char l) as [[local rest]|] eqn:Hfirst; [|done].
    destruct (split_last "."%char rest) as [[domain tld]|] eqn:Hlast; [|done].
    apply split_first_Some in Hfirst as [Hl _].
    apply split_last_Some in Hlast as [Hrest _].
    rewrite !andb_true_iff, !negb_true_iff, !bool_decide_eq_false,
      !forallb_Forall, Nat.leb_le.
    intros [[[[[? ?] ?] ?] ?] ?]. exists local, domain, tld.
    rewrite Hl, Hrest. done.
  - intros (local & domain & tld & Hl & Hlocal & Hlchars & Hdomain & Hdchars
            & Htld & Htchars).
    rewrite Hl. rewrite split_first_app.
    2: { intros Hin. by apply (proj1 (Forall_forall _ _) Hlchars) in Hin. }
    rewrite split_last_app.
    2: { intros Hin. by apply (proj1 (Forall_forall _ _) Htchars) in Hin. }
    rewrite !andb_true_iff, !negb_true_iff, !bool_decide_eq_false,
      !forallb_Forall, Nat.leb_le.
    done.
Qed.

(** X25: [validate_email] accepts the strings made of a local part of
    at least one letter, digit or one of [._%+-], an at sign, a domain
    of at least one letter, digit, dot or hyphen, a dot, and two letters
    or more; such a string followed by one newline; and nothing else.
    A value that is not a string is refused. *)
Theorem validate_email_shape (email : value) :
  validate_email email = true
  ↔ ∃ s, email = VStr s
         ∧ (email_shape (list_ascii_of_string s)
            ∨ ∃ body, list_ascii_of_string s = (body ++ ["010"%char])%list
                      ∧ email_shape body).
Proof.
  split.
  - destruct email as [| | | |s]; try done. cbn [validate_email].
    intros Hshape%match_email_shape. exists s. split; [done|].
    destruct (before_final_newline_cases (list_ascii_of_string s)) as [Heq|Heq].
    + left. by rewrite <-Heq.
    + right. by eexists.
  - intros (s & -> & Hshape). cbn [validate_email]. apply match_email_shape.
    destruct Hshape as [Hshape|(body & -> & Hshape)].
    + destruct Hshape as (local & domain & tld & Hl & Hlocal & Hlchars & Hdomain
                          & Hdchars & Hlen & Htchars).
      assert (before_final_newline (list_ascii_of_string s)
              = list_ascii_of_string s) as ->.
      { rewrite Hl.
        change (local ++ "@"%char :: domain ++ "."%char :: tld)%list
          with (local ++ ("@"%char :: domain) ++ "."%char :: tld)%list.
        rewrite (assoc_L (++)), (cons_middle "."%char), (assoc_L (++)).
        apply before_final_newline_letter; [|done].
        intros ->. cbn in Hlen. lia. }
      by exists local, domain, tld.
    + by rewrite before_final_newline_snoc.
Qed.

End email.

(** ** Renaming columns *)






